(** * Moodle-Downloader-2: configuration, change filter, console report,
      and the state reconciliation engine

    Part I embeds the program: [ConfigHelper] (config_service/config_helper.py),
    [MoodleService._filter_courses] (moodle_connector/moodle_service.py) and
    [ConsoleService.notify_about_changes_in_moodle]
    (notification_services/console/console_service.py) are translated from
    their Python sources.  The reconciliation engine and the persisted state
    store have no source file in this tree; they are modelled from the
    specification and marked as such.

    Part II states and proves the properties, first those of the
    specification, then further properties of the embedded code. *)

From Stdlib Require Import ZArith String Ascii List Lia.
From stdpp Require Import base option list gmap strings fin_maps pretty.

Set Warnings "-register-all".
Local Open Scope string_scope.
Local Open Scope list_scope.

(* ===================================================================== *)
(** * Part I: the embedding                                               *)
(* ===================================================================== *)

(** ** Python values and exceptions *)

Module Py.

(** The values that [json.loads] produces and that the configuration
    dictionary stores.  A JSON object keeps its keys in insertion order. *)
Inductive value : Type :=
| VNone
| VBool (b : bool)
| VInt (z : Z)
| VStr (s : string)
| VList (l : list value)
| VDict (d : list (string * value)).

(** The exception classes that the embedded code raises or catches. *)
Inductive exn : Type :=
| KeyError (key : string)
| ValueError (msg : string)
| RuntimeError (msg : string).

Definition is_KeyError (e : exn) : bool :=
  match e with KeyError _ => true | _ => false end.

Definition is_ValueError (e : exn) : bool :=
  match e with ValueError _ => true | _ => false end.

(** A computation over a mutable world [S]: it returns a value or raises,
    and in both cases hands back the world it leaves behind. *)
Definition M (S A : Type) : Type := S -> (exn + A) * S.

Definition ret {S A} (a : A) : M S A := fun s => (inr a, s).

Definition raise {S A} (e : exn) : M S A := fun s => (inl e, s).

Definition bind {S A B} (m : M S A) (k : A -> M S B) : M S B :=
  fun s =>
    match m s with
    | (inr a, s') => k a s'
    | (inl e, s') => (inl e, s')
    end.

(** [try: body except cls: handler].  The handler runs in the world the
    body left behind; an exception of another class propagates. *)
Definition try_except {S A} (body : M S A) (cls : exn -> bool)
    (handler : M S A) : M S A :=
  fun s =>
    match body s with
    | (inr a, s') => (inr a, s')
    | (inl e, s') => if cls e then handler s' else (inl e, s')
    end.

Definition modify {S} (f : S -> S) : M S unit := fun s => (inr tt, f s).

(** The world that a computation leaves behind. *)
Definition world {S A} (m : M S A) (s : S) : S := snd (m s).

End Py.

Notation "x <- m ;; k" := (Py.bind m (fun x => k))
  (at level 100, m at next level, right associativity).
Notation "m1 ;;; m2" := (Py.bind m1 (fun _ => m2))
  (at level 100, right associativity).

(** ** config_service/config_helper.py *)

Module ConfigHelper.
Import Py.

(** The object state of a [ConfigHelper] together with the part of the
    file system it writes: [fs] maps a path to the text last written to
    it. *)
Record state : Type := mkState {
  _whole_config : gmap string value;
  config_path : string;
  fs : gmap string string
}.

Definition with_config (cfg : gmap string value) (st : state) : state :=
  {| _whole_config := cfg; config_path := config_path st; fs := fs st |}.

Definition with_fs (files : gmap string string) (st : state) : state :=
  {| _whole_config := _whole_config st; config_path := config_path st;
     fs := files |}.

Section Methods.

(** [json.dumps(obj, indent=4)] of the Python standard library. *)
Variable json_dumps : gmap string value -> string.

(** [_save]: opens [config_path] with mode ['w+'] and writes the
    formatted configuration, replacing the former content. *)
Definition _save : M state unit :=
  modify (fun st =>
    with_fs (<[config_path st := json_dumps (_whole_config st)]> (fs st)) st).

(** [self._whole_config[key]] *)
Definition getitem (key : string) : M state value :=
  fun st =>
    match _whole_config st !! key with
    | Some v => (inr v, st)
    | None => (inl (KeyError key), st)
    end.

Definition get_property (key : string) : M state value :=
  try_except (getitem key) is_KeyError
    (raise (ValueError ("The " +:+ key +:+ "-Property is not yet configured!"))).

Definition set_property (key : string) (v : value) : M state unit :=
  modify (fun st => with_config (<[key := v]> (_whole_config st)) st) ;;;
  _save.

Definition remove_property (key : string) : M state unit :=
  modify (fun st => with_config (delete key (_whole_config st)) st) ;;;
  _save.

Definition chr (n : nat) : string := String (ascii_of_nat n) EmptyString.

Definition windows_map : value :=
  VDict [ ("\", VStr "＼"); ("/", VStr "／"); (":", VStr "꞉");
          ("?", VStr "？"); ("*", VStr "＊"); ("<", VStr "＜");
          (">", VStr "＞"); ("|", VStr "｜"); (chr 34, VStr "＂") ].

Definition linux_map : value := VDict [ ("/", VStr "|") ].

Definition set_default_filename_character_map (default_windows_map : bool)
    : M state unit :=
  if default_windows_map
  then set_property "filename_character_map" windows_map
  else set_property "filename_character_map" linux_map.

(* ---------------------------- GETTERS ---------------------------- *)

Definition get_download_submissions : M state value :=
  try_except (get_property "download_submissions") is_ValueError
    (ret (VBool false)).

Definition get_download_descriptions : M state value :=
  try_except (get_property "download_descriptions") is_ValueError
    (ret (VBool false)).

Definition get_download_databases : M state value :=
  try_except (get_property "download_databases") is_ValueError
    (ret (VBool false)).

Definition get_download_course_ids : M state value :=
  try_except (get_property "download_course_ids") is_ValueError
    (ret (VList [])).

Definition get_token : M state value :=
  try_except (get_property "token") is_ValueError
    (raise (ValueError "Not yet configured!")).

Definition get_moodle_domain : M state value :=
  try_except (get_property "moodle_domain") is_ValueError
    (raise (ValueError "Not yet configured!")).

Definition get_moodle_path : M state value :=
  try_except (get_property "moodle_path") is_ValueError
    (raise (ValueError "Not yet configured!")).

Definition get_options_of_courses : M state value :=
  try_except (get_property "options_of_courses") is_ValueError
    (ret (VDict [])).

Definition get_dont_download_course_ids : M state value :=
  try_except (get_property "dont_download_course_ids") is_ValueError
    (ret (VList [])).

Definition get_download_linked_files : M state value :=
  try_except (get_property "download_linked_files") is_ValueError
    (ret (VBool false)).

(** [options.update({key: v})] on the local dictionary [options]. *)
Fixpoint dict_update (key : string) (v : value) (d : list (string * value))
    : list (string * value) :=
  match d with
  | [] => [(key, v)]
  | (k, w) :: rest =>
      if String.eqb k key then (k, v) :: rest
      else (k, w) :: dict_update key v rest
  end.

Definition option_or_default (key : string) (default : value)
    (options : list (string * value)) : M state (list (string * value)) :=
  try_except
    (v <- get_property key ;; ret (dict_update key v options))
    is_ValueError
    (ret (dict_update key default options)).

Definition get_download_options : M state value :=
  options <- option_or_default "download_linked_files" (VBool false) [] ;;
  options <- option_or_default "download_domains_whitelist" (VList []) options ;;
  options <- option_or_default "download_domains_blacklist" (VList []) options ;;
  ret (VDict options).

Definition get_filename_character_map : M state value :=
  try_except (get_property "filename_character_map") is_ValueError
    (set_default_filename_character_map true ;;;
     get_property "filename_character_map").

(** For the statements: the state in which the dictionary holds [v]
    under [key] and the configuration file holds the text of that
    dictionary. *)
Definition stored (key : string) (v : value) (st : state) : state :=
  let cfg := <[key := v]> (_whole_config st) in
  {| _whole_config := cfg; config_path := config_path st;
     fs := <[config_path st := json_dumps cfg]> (fs st) |}.

End Methods.

(** For the examples: a helper that was loaded from a configuration file
    holding only the options of the courses. *)
Definition example_state : state :=
  {| _whole_config := {[ "options_of_courses" := VDict [] ]};
     config_path := "config.json";
     fs := ∅ |}.

Section Loading.

(** [json.loads] of the Python standard library: it raises (a
    [json.JSONDecodeError], which is a [ValueError]) or returns the parsed
    value, [Some] dictionary when the text is a JSON object and [None]
    when it is another JSON value. *)
Variable json_loads : string -> exn + option (gmap string value).

(** [str(Path(storage_path) / 'config.json')] *)
Variable config_file_in : string -> string.

(** [ConfigHelper(storage_path)], on the file system [files]. *)
Definition __init__ (storage_path : string) (files : gmap string string)
    : state :=
  {| _whole_config := ∅;
     config_path := config_file_in storage_path;
     fs := files |}.

(** [os.path.isfile(self.config_path)] *)
Definition is_present : M state bool :=
  fun st => (inr (bool_decide (is_Some (fs st !! config_path st))), st).

(** [load]: a file that cannot be opened gives the [ValueError] of the
    [except IOError] clause; an exception of [json.loads] is no [IOError]
    and propagates.  The result is [None] when the text parses to a JSON
    value that is no object: the helper then holds no dictionary. *)
Definition load (st : state) : option ((exn + unit) * state) :=
  match fs st !! config_path st with
  | None => Some (inl (ValueError "No config found!"), st)
  | Some config_raw =>
      match json_loads config_raw with
      | inl e => Some (inl e, st)
      | inr (Some cfg) => Some (inr tt, with_config cfg st)
      | inr None => None
      end
  end.

End Loading.

(** For the statements: the configuration file holds the text of the
    dictionary that the helper has in memory. *)
Definition in_sync (json_dumps : gmap string value -> string) (st : state)
    : Prop :=
  fs st !! config_path st = Some (json_dumps (_whole_config st)).

(** For the statements: the state in which [key] is gone from the
    dictionary and the configuration file holds the text of that
    dictionary. *)
Definition removed (json_dumps : gmap string value -> string) (key : string)
    (st : state) : state :=
  let cfg := delete key (_whole_config st) in
  {| _whole_config := cfg; config_path := config_path st;
     fs := <[config_path st := json_dumps cfg]> (fs st) |}.

End ConfigHelper.

(** ** The objects that the change list is made of

    [state_recorder/file.py] and [state_recorder/course.py] are not part of
    this tree.  The records carry the attributes that the embedded methods
    read or assign. *)

Module Objects.

Inductive File : Type := mkFile {
  content_type : string;
  saved_to : string;
  modified : bool;
  moved : bool;
  deleted : bool;
  new_file : option File
}.

Record Course : Type := mkCourse {
  id : Z;
  fullname : string;
  files : list File
}.

(** [course.files = fs] *)
Definition set_files (fs : list File) (c : Course) : Course :=
  {| id := id c; fullname := fullname c; files := fs |}.

(** Course objects live in a store and are passed around by reference:
    the list [changes] that the filter receives, the list it returns and
    the caller's own variables may all point to the same object. *)
Definition ref : Type := positive.
Abbreviation heap := (gmap ref Course).

End Objects.

(** ** moodle_connector/moodle_service.py: [MoodleService._filter_courses] *)

Module MoodleService.
Import Objects.

Section Filter.

(** [ResultsHandler._should_download_course], defined in
    [moodle_connector/results_handler.py], which is not part of this
    tree: the course-level selection by allow-list and deny-list. *)
Variable _should_download_course : Z -> list Z -> list Z -> bool.

Variable download_course_ids : list Z.
Variable dont_download_course_ids : list Z.
Variable download_submissions : bool.
Variable download_descriptions : bool.
Variable download_databases : bool.

(** The inner loop, written three times in the source:
    [for file in course.files: if file.content_type != ty: append]. *)
Fixpoint without_content_type (ty : string) (course_files : list File)
    : list File :=
  match course_files with
  | [] => []
  | file :: rest =>
      if negb (String.eqb (content_type file) ty)
      then file :: without_content_type ty rest
      else without_content_type ty rest
  end.

(** [if not toggle: ...; course.files = course_files] on the object
    that [course] refers to. *)
Definition drop_unless (toggle : bool) (ty : string) (course : ref)
    (h : heap) : option heap :=
  if negb toggle then
    c ← h !! course;
    Some (<[course := set_files (without_content_type ty (files c)) c]> h)
  else Some h.

(** The body of [for course in changes]: the heap after the three
    assignments, and whether [course] is appended to
    [filtered_changes]. *)
Definition filter_course (course : ref) (h : heap) : option (heap * bool) :=
  h ← drop_unless download_submissions "submission_file" course h;
  h ← drop_unless download_descriptions "description" course h;
  h ← drop_unless download_databases "database_file" course h;
  c ← h !! course;
  Some (h, _should_download_course (id c) download_course_ids
             dont_download_course_ids
           && bool_decide (0 < length (files c))).

Fixpoint filter_loop (changes : list ref) (h : heap)
    (filtered_changes : list ref) : option (heap * list ref) :=
  match changes with
  | [] => Some (h, filtered_changes)
  | course :: rest =>
      '(h', keep) ← filter_course course h;
      filter_loop rest h'
        (if keep : bool then filtered_changes ++ [course]
         else filtered_changes)
  end.

(** [_filter_courses]: the result is [None] only when [changes] holds a
    reference to no object, which no Python caller can produce. *)
Definition _filter_courses (changes : list ref) (h : heap)
    : option (heap * list ref) :=
  filter_loop changes h [].

(** For the statements: a file passes the category toggles when its
    content type is not one of a disabled category. *)
Definition enabled (file : File) : bool :=
  (download_submissions
   || negb (String.eqb (content_type file) "submission_file"))
  && (download_descriptions
      || negb (String.eqb (content_type file) "description"))
  && (download_databases
      || negb (String.eqb (content_type file) "database_file")).

(** For the statements: the course behind [course] is selected by the
    two lists and keeps at least one file. *)
Definition selected (h : heap) (course : ref) : bool :=
  match h !! course with
  | Some c =>
      _should_download_course (id c) download_course_ids
        dont_download_course_ids
      && bool_decide (0 < length (List.filter enabled (files c)))
  | None => false
  end.

(** For the statements: the heap in which the courses behind [touched]
    have lost the files of the disabled categories. *)
Definition filtered_heap (touched : list ref) (h : heap) : heap :=
  map_imap (fun l c =>
    Some (if bool_decide (l ∈ touched)
          then set_files (List.filter enabled (files c)) c else c)) h.

End Filter.

(** A selection in the manner of an allow-list and a deny-list, for the
    examples: a course is taken when the allow-list is empty or names it,
    and the deny-list does not name it. *)
Definition example_selection (course_id : Z) (allow deny : list Z) : bool :=
  (bool_decide (course_id ∈ allow) || bool_decide (allow = []))
  && negb (bool_decide (course_id ∈ deny)).

Definition example_submission : File :=
  {| content_type := "submission_file"; saved_to := "/course/essay.pdf";
     modified := false; moved := false; deleted := false;
     new_file := None |}.

Definition example_slides : File :=
  {| content_type := "file"; saved_to := "/course/slides.pdf";
     modified := true; moved := false; deleted := false;
     new_file := None |}.

Definition example_course : Course :=
  {| id := 7; fullname := "Logic";
     files := [example_submission; example_slides] |}.

Definition example_heap : heap := {[ 1%positive := example_course ]}.

(** [s.endswith(suffix)]: [s] itself or one of its tails is [suffix]. *)
Fixpoint endswith (s suffix : string) : bool :=
  String.eqb s suffix
  || match s with
     | EmptyString => false
     | String _ tail => endswith tail suffix
     end.

(** [_split_moodle_uri], on the two fields of the parsed URI that it
    reads, [netloc] and [path]. *)
Definition _split_moodle_uri (netloc path : string) : string * string :=
  let moodle_domain := netloc in
  let moodle_path := path in
  let moodle_path :=
    if negb (endswith moodle_path "/") then moodle_path +:+ "/"
    else moodle_path in
  let moodle_path :=
    if String.eqb moodle_path EmptyString then "/" else moodle_path in
  (moodle_domain, moodle_path).

End MoodleService.

(** ** notification_services/console/console_service.py *)

Module ConsoleService.
Import Objects.

(** What the method sends to the terminal and to the two loggers. *)
Inductive output : Type :=
| Print (line : string)
| LoggingInfo (msg : string)
| LogSuccess (msg : string).

Definition chr (n : nat) : string := String (ascii_of_nat n) EmptyString.

Definition RESET_SEQ : string := chr 27 +:+ "[0m".

(** ['\033[1;%dm' % colour] *)
Definition COLOR_SEQ (colour : nat) : string :=
  chr 27 +:+ "[1;" +:+ pretty colour +:+ "m".

(** [BLACK, RED, GREEN, YELLOW, BLUE, MAGENTA, CYAN, WHITE = range(30, 38)] *)
Definition GREEN : nat := 32.
Definition YELLOW : nat := 33.
Definition BLUE : nat := 34.
Definition MAGENTA : nat := 35.
Definition CYAN : nat := 36.

Definition TAB : string := chr 9.
Definition NEWLINE : string := chr 10.

(** The body of [for file in course.files]. *)
Definition report_file (file : File) : output :=
  if modified file then
    Print (COLOR_SEQ YELLOW +:+ "≠" +:+ TAB +:+ saved_to file +:+ RESET_SEQ)
  else if moved file then
    match new_file file with
    | Some new =>
        Print (COLOR_SEQ CYAN +:+ "<->" +:+ TAB
               +:+ (saved_to file +:+ RESET_SEQ +:+ COLOR_SEQ GREEN
                    +:+ " ==> " +:+ saved_to new +:+ RESET_SEQ))
    | None =>
        Print (COLOR_SEQ CYAN +:+ "<->" +:+ TAB +:+ saved_to file +:+ RESET_SEQ)
    end
  else if deleted file then
    Print (COLOR_SEQ MAGENTA +:+ "-" +:+ TAB +:+ saved_to file +:+ RESET_SEQ)
  else
    Print (COLOR_SEQ GREEN +:+ "+" +:+ TAB +:+ saved_to file +:+ RESET_SEQ).

(** The body of the second [for course in changes]. *)
Definition report_course (course : Course) : list output :=
  if bool_decide (length (files course) = 0) then []
  else Print (COLOR_SEQ BLUE +:+ fullname course +:+ RESET_SEQ)
       :: map report_file (files course) ++ [Print NEWLINE].

Definition count_changes (changes : list Course) : nat :=
  fold_left (fun diff_count course => diff_count + length (files course))
            changes 0.

Definition notify_about_changes_in_moodle (changes : list Course)
    : list output :=
  let diff_count := count_changes changes in
  let found :=
    pretty diff_count +:+ " changes found for the configured Moodle-Account." in
  Print NEWLINE
  :: (if bool_decide (0 < diff_count)
      then [LoggingInfo found; LogSuccess found] else [])
  ++ flat_map report_course changes.

End ConsoleService.

(** ** The reconciliation engine

    [state_recorder/state_recorder.py], which holds
    [StateRecorder.changes_of_new_version], is not part of this tree.  The
    engine below follows sections 3 and 4.1 of the specification. *)

Module Reconciliation.

(** Modelled from the spec: the content categories of a file (section 3);
    the data classes of [state_recorder] are missing. *)
Inductive ContentCategory : Type :=
| submission | description | database | generic.

(** Modelled from the spec: a file of a snapshot or of the persisted state
    (section 3); [identity] is the primary matching key, [content_hash]
    and [size] the secondary one. *)
Record File : Type := mkFile {
  identity : Z;
  content_hash : string;
  path : string;
  content_category : ContentCategory;
  size : Z;
  modified_time : Z
}.

(** Modelled from the spec: a course with its ordered files (section 3). *)
Record Course : Type := mkCourse {
  id : Z;
  full_name : string;
  files : list File
}.

(** Modelled from the spec: the kind of a change entry (section 3). *)
Inductive Kind : Type := New | Modified | Moved | Deleted.

(** Modelled from the spec: a change entry (section 3), with the optional
    linked file that a Moved entry carries. *)
Record ChangeEntry : Type := mkEntry {
  base_file : File;
  kind : Kind;
  linked_file : option File
}.

(** Modelled from the spec: the snapshot, the persisted state as its
    durable analogue, and the change-set as courses paired with their
    entries (sections 3 and 6). *)
Definition Snapshot : Type := list Course.
Definition PersistedState : Type := list Course.
Definition ChangeSet : Type := list (Course * list ChangeEntry).

(** Modelled from the spec: the error of section 7, with the course id,
    the identity and the competing paths. *)
Inductive DiffError : Type :=
| DiffInconsistencyError (course_id : Z) (file_identity : Z)
    (competing_paths : list string).

#[global] Instance Kind_eq_dec : EqDecision Kind.
Proof. solve_decision. Defined.

Definition identities (fs : list File) : list Z := map identity fs.

(** Modelled from the spec: the index of old files keyed by identity
    (section 4.1, step 1).  The index keeps the stored files in their
    stored order; the PersistedState invariant (one entry per course and
    identity) makes its keys unique. *)
Fixpoint index_lookup (i : Z) (index : list File) : option File :=
  match index with
  | [] => None
  | o :: rest =>
      if bool_decide (identity o = i) then Some o else index_lookup i rest
  end.

(** Modelled from the spec: "remove the matched identity from the old
    index (consumed)". *)
Fixpoint index_remove (i : Z) (index : list File) : list File :=
  match index with
  | [] => []
  | o :: rest =>
      if bool_decide (identity o = i) then index_remove i rest
      else o :: index_remove i rest
  end.

(** Modelled from the spec: the Modified entry of section 4.1, which
    keeps the old path as its base and records the new hash. *)
Definition modified_entry (o n : File) : ChangeEntry :=
  {| base_file :=
       {| identity := identity n; content_hash := content_hash n;
          path := path o; content_category := content_category n;
          size := size n; modified_time := modified_time n |};
     kind := Modified; linked_file := None |}.

(** Modelled from the spec: the Moved entry of section 4.1, whose base
    file is the old record and whose linked file is the new record. *)
Definition moved_entry (o n : File) : ChangeEntry :=
  {| base_file := o; kind := Moved; linked_file := Some n |}.

(** Modelled from the spec: the New and the Deleted entry of section 4.1. *)
Definition new_entry (n : File) : ChangeEntry :=
  {| base_file := n; kind := New; linked_file := None |}.

Definition deleted_entry (o : File) : ChangeEntry :=
  {| base_file := o; kind := Deleted; linked_file := None |}.

(** Modelled from the spec: the three cases of a new file whose identity
    is found in the old index (section 4.1, step 2, first bullet). *)
Definition classify (o n : File) : option ChangeEntry :=
  if negb (String.eqb (content_hash o) (content_hash n))
  then Some (modified_entry o n)
  else if negb (String.eqb (path o) (path n))
  then Some (moved_entry o n)
  else None.

(** Modelled from the spec: the key (content_hash, size) of the secondary
    match (section 4.1, step 2, second bullet). *)
Definition same_content (n o : File) : bool :=
  String.eqb (content_hash o) (content_hash n)
  && bool_decide (size o = size n).

(** Modelled from the spec: the tie-break of the secondary match, the
    candidate with the lexicographically smallest path; of two candidates
    with the same path the one stored first is taken. *)
Fixpoint smallest_path (candidates : list File) : option File :=
  match candidates with
  | [] => None
  | c :: rest =>
      match smallest_path rest with
      | None => Some c
      | Some m => if String.leb (path c) (path m) then Some c else Some m
      end
  end.

(** Modelled from the spec: the secondary match of a new file against the
    remaining, unconsumed old files. *)
Definition secondary_match (n : File) (remaining : list File) : option File :=
  smallest_path (List.filter (same_content n) remaining).

(** Modelled from the spec: steps 2 and 3 of section 4.1 for one course;
    [remaining] is the old index without the consumed entries. *)
Fixpoint reconcile (remaining : list File) (new_files : list File)
    : list ChangeEntry :=
  match new_files with
  | [] => map deleted_entry remaining
  | n :: rest =>
      match index_lookup (identity n) remaining with
      | Some o =>
          option_list (classify o n)
          ++ reconcile (index_remove (identity n) remaining) rest
      | None =>
          match secondary_match n remaining with
          | Some o =>
              moved_entry o n
              :: reconcile (index_remove (identity o) remaining) rest
          | None => new_entry n :: reconcile remaining rest
          end
      end
  end.

(** Modelled from the spec: the failure condition of section 4.1, two
    files with the same identity in one course of the new snapshot. *)
Fixpoint first_duplicate (fs : list File) : option Z :=
  match fs with
  | [] => None
  | f :: rest =>
      if bool_decide (identity f ∈ identities rest) then Some (identity f)
      else first_duplicate rest
  end.

(** Modelled from the spec: the competing paths that the error reports. *)
Definition paths_of (i : Z) (fs : list File) : list string :=
  map path (List.filter (fun f => bool_decide (identity f = i)) fs).

(** Modelled from the spec: the stored files of one course; a course
    without a stored record has the empty baseline. *)
Fixpoint stored_files (old : PersistedState) (course_id : Z) : list File :=
  match old with
  | [] => []
  | c :: rest =>
      if bool_decide (id c = course_id) then files c
      else stored_files rest course_id
  end.

(** Modelled from the spec: the diff of one course of the new snapshot,
    which fails on a repeated identity before any file is classified. *)
Definition diff_course (old : PersistedState) (c : Course)
    : DiffError + (Course * list ChangeEntry) :=
  match first_duplicate (files c) with
  | Some i => inl (DiffInconsistencyError (id c) i (paths_of i (files c)))
  | None => inr (c, reconcile (stored_files old (id c)) (files c))
  end.

(** Modelled from the spec: [diff(old, new)] of section 4.1, course by
    course over the new snapshot; the first inconsistent course aborts
    the whole diff. *)
Fixpoint diff (old : PersistedState) (new : Snapshot)
    : DiffError + ChangeSet :=
  match new with
  | [] => inr []
  | c :: rest =>
      match diff_course old c with
      | inl e => inl e
      | inr changes =>
          match diff old rest with
          | inl e => inl e
          | inr cs => inr (changes :: cs)
          end
      end
  end.

(** For the statements: all entries of a change-set. *)
Definition change_entries (cs : ChangeSet) : list ChangeEntry :=
  flat_map snd cs.

(** Modelled from the spec: the snapshot that is exactly equivalent to a
    persisted state (section 8). *)
Definition snapshot_of (s : PersistedState) : Snapshot := s.

(** Modelled from the spec: the PersistedState invariant of section 3, the
    id is the identity of a course, and there is one entry per course and
    file identity. *)
Definition wf_state (s : PersistedState) : Prop :=
  NoDup (map id s) ∧ Forall (fun c => NoDup (identities (files c))) s.

(** For the statements: an identity occurs in an entry as the identity of
    its base file or of its linked file. *)
Definition mentions (i : Z) (e : ChangeEntry) : bool :=
  bool_decide (identity (base_file e) = i)
  || match linked_file e with
     | Some l => bool_decide (identity l = i)
     | None => false
     end.

(** For the statements: the number of entries in which an identity
    occurs. *)
Definition occurrences (i : Z) (es : list ChangeEntry) : nat :=
  length (List.filter (mentions i) es).

Arguments occurrences : simpl never.

(** For the statements: whether, while [reconcile] walks the new files, a
    secondary match consumes an old file whose identity is carried by a
    new file that is still to come. *)
Fixpoint captures (remaining new_files : list File) : bool :=
  match new_files with
  | [] => false
  | n :: rest =>
      match index_lookup (identity n) remaining with
      | Some _ => captures (index_remove (identity n) remaining) rest
      | None =>
          match secondary_match n remaining with
          | Some o =>
              bool_decide (identity o ∈ identities rest)
              || captures (index_remove (identity o) remaining) rest
          | None => captures remaining rest
          end
      end
  end.

(** For the statements: the old index as [reconcile] has it once the new
    files [processed] have been handled. *)
Fixpoint index_after (remaining processed : list File) : list File :=
  match processed with
  | [] => remaining
  | n :: rest =>
      match index_lookup (identity n) remaining with
      | Some _ => index_after (index_remove (identity n) remaining) rest
      | None =>
          match secondary_match n remaining with
          | Some o => index_after (index_remove (identity o) remaining) rest
          | None => index_after remaining rest
          end
      end
  end.

(** For the statements: where an entry of one course comes from. *)
Inductive entry_of (old_files new_files : list File) : ChangeEntry -> Prop :=
| of_new n :
    n ∈ new_files -> entry_of old_files new_files (new_entry n)
| of_modified o n :
    o ∈ old_files -> n ∈ new_files -> identity o = identity n ->
    content_hash o <> content_hash n ->
    entry_of old_files new_files (modified_entry o n)
| of_renamed o n :
    o ∈ old_files -> n ∈ new_files -> identity o = identity n ->
    content_hash o = content_hash n -> path o <> path n ->
    entry_of old_files new_files (moved_entry o n)
| of_reissued o n :
    o ∈ old_files -> n ∈ new_files -> identity o <> identity n ->
    same_content n o = true ->
    entry_of old_files new_files (moved_entry o n)
| of_deleted o :
    o ∈ old_files -> entry_of old_files new_files (deleted_entry o).

(** The state and the snapshots of the examples: one course with one
    stored file. *)
Definition example_file (i : Z) (hash p : string) : File :=
  {| identity := i; content_hash := hash; path := p;
     content_category := generic; size := 1024; modified_time := 0 |}.

Definition example_course (fs : list File) : Course :=
  {| id := 7; full_name := "Logic"; files := fs |}.

Definition example_stored : File := example_file 1 "A" "notes.pdf".

Definition example_old : PersistedState := [example_course [example_stored]].

(** The stored file was renamed, and a file was added. *)
Definition example_renamed : Course :=
  example_course [example_file 1 "A" "lecture/notes.pdf";
                  example_file 3 "C" "new.pdf"].

(** The stored file was edited and renamed. *)
Definition example_edited : Course :=
  example_course [example_file 1 "B" "lecture/notes.pdf"].

(** The stored content was re-issued under identity 2, listed before the
    file that still carries identity 1, whose hash is [hash]. *)
Definition example_reissued (hash : string) : Course :=
  example_course [example_file 2 "A" "copy.pdf";
                  example_file 1 hash "notes.pdf"].

(** Two files of the new snapshot carry identity 4. *)
Definition example_duplicated : Course :=
  example_course [example_file 4 "D" "a.pdf"; example_file 4 "E" "b.pdf"].

(** The entries of the example course [c] against the stored state. *)
Definition example_entries (c : Course) : list ChangeEntry :=
  reconcile (stored_files example_old (id c)) (files c).

End Reconciliation.

(** ** The persisted state store and the run around the engine

    The store behind [StateRecorder] is not part of this tree either.  The
    model follows section 4.2 of the specification. *)

Module StateStore.
Import Reconciliation.

(** Modelled from the spec: the error of [load] (sections 4.2 and 7). *)
Inductive StoreError : Type := StoreCorruptError.

(** Modelled from the spec: the backing data at one location of the
    durable medium, the course records written so far and whether the
    write reached its end.  Data whose write did not reach its end does
    not parse into the expected shape. *)
Record image : Type := mkImage {
  written : list Course;
  complete : bool
}.

(** Modelled from the spec: the durable medium with the location of the
    store and the temporary location that [commit] writes to. *)
Record medium : Type := mkMedium {
  store_location : option image;
  temporary_location : option image
}.

(** Modelled from the spec: [load()]; a medium without a store is the
    empty baseline of the first run. *)
Definition load (m : medium) : StoreError + PersistedState :=
  match store_location m with
  | None => inr []
  | Some img =>
      if complete img then inr (written img) else inl StoreCorruptError
  end.

(** Modelled from the spec: the elementary writes of [commit], between
    any two of which the process may crash. *)
Inductive step : Type :=
| CreateTemporary
| WriteRecord (c : Course)
| FinishTemporary
| Replace.

(** Modelled from the spec: a write that reaches the temporary location
    only. *)
Definition on_temporary (f : image -> image) (m : medium) : medium :=
  {| store_location := store_location m;
     temporary_location := f <$> temporary_location m |}.

(** Modelled from the spec: the effect of one elementary write; the
    replace puts the temporary data in the place of the store in one
    step. *)
Definition exec (m : medium) (s : step) : medium :=
  match s with
  | CreateTemporary =>
      {| store_location := store_location m;
         temporary_location := Some {| written := []; complete := false |} |}
  | WriteRecord c =>
      on_temporary
        (fun img => {| written := written img ++ [c];
                       complete := complete img |}) m
  | FinishTemporary =>
      on_temporary
        (fun img => {| written := written img; complete := true |}) m
  | Replace =>
      match temporary_location m with
      | Some img =>
          {| store_location := Some img; temporary_location := None |}
      | None => m
      end
  end.

(** Modelled from the spec: [commit(new_state)], write to the temporary
    location, then replace. *)
Definition commit_steps (new_state : PersistedState) : list step :=
  CreateTemporary :: map WriteRecord new_state ++ [FinishTemporary; Replace].

(** Modelled from the spec: a commit that runs to its end. *)
Definition commit (new_state : PersistedState) (m : medium) : medium :=
  fold_left exec (commit_steps new_state) m.

(** Modelled from the spec: the medium that a crash leaves behind when
    only the first [k] writes of [commit] were carried out. *)
Definition crash_after (k : nat) (new_state : PersistedState) (m : medium)
    : medium :=
  fold_left exec (take k (commit_steps new_state)) m.

(** Modelled from the spec: the fatal errors of a run (section 7). *)
Inductive RunError : Type :=
| StoreFailure (e : StoreError)
| DiffFailure (e : DiffError).

(** Modelled from the spec: one run (sections 2 and 4.2): load, diff,
    and, only when no fatal error occurred, one commit of the new
    snapshot.  Filtering, notification and download scheduling do not
    touch the store and are left to the collaborators. *)
Definition run (m : medium) (new : Snapshot)
    : medium * (RunError + ChangeSet) :=
  match load m with
  | inl e => (m, inl (StoreFailure e))
  | inr old =>
      match diff old new with
      | inl e => (m, inl (DiffFailure e))
      | inr cs => (commit new m, inr cs)
      end
  end.

(** The medium of the examples: the store holds the example state. *)
Definition example_medium : medium :=
  {| store_location :=
       Some {| written := example_old; complete := true |};
     temporary_location := None |}.

End StateStore.

(** ** A change entry as the console sees it *)

Module Report.
Import Reconciliation.

(** Modelled from the spec: the content type that the source uses for a
    content category; the filter of the source names ['submission_file'],
    ['description'] and ['database_file']. *)
Definition content_type_of (c : ContentCategory) : string :=
  match c with
  | submission => "submission_file"
  | description => "description"
  | database => "database_file"
  | generic => "file"
  end.

(** Modelled from the spec: the file record of the source for a file
    that carries no change flag. *)
Definition plain_file (f : File) : Objects.File :=
  {| Objects.content_type := content_type_of (content_category f);
     Objects.saved_to := path f;
     Objects.modified := false;
     Objects.moved := false;
     Objects.deleted := false;
     Objects.new_file := None |}.

(** Modelled from the spec: the dict-based file record of the source
    that a [ChangeEntry] stands for (section 9): the kind becomes the
    flags [modified], [moved] and [deleted], the path of the base file
    becomes [saved_to], the linked file becomes [new_file]. *)
Definition as_file (e : ChangeEntry) : Objects.File :=
  {| Objects.content_type :=
       content_type_of (content_category (base_file e));
     Objects.saved_to := path (base_file e);
     Objects.modified := bool_decide (kind e = Modified);
     Objects.moved := bool_decide (kind e = Moved);
     Objects.deleted := bool_decide (kind e = Deleted);
     Objects.new_file := plain_file <$> linked_file e |}.

End Report.

(** ** Dictionaries as values *)

Module PyDict.
Import Py.

(** The lookup behind [d.get(key, default)] on the pairs of a
    dictionary. *)
Fixpoint dict_get (key : string) (d : list (string * value)) : option value :=
  match d with
  | [] => None
  | (k, v) :: rest =>
      if String.eqb k key then Some v else dict_get key rest
  end.

(** [receiver.get(key, None)]: the outer [None] is the [AttributeError]
    of a receiver that is no dictionary; a missing key and a stored
    [null] both give Python's [None]. *)
Definition get_or_None (receiver : value) (key : string)
    : option (option value) :=
  match receiver with
  | VDict d =>
      match dict_get key d with
      | None | Some VNone => Some None
      | Some v => Some (Some v)
      end
  | _ => None
  end.

End PyDict.

(** ** moodle_connector/moodle_service.py:
       [MoodleService.add_options_to_courses] *)

Module CourseOptions.
Import Py PyDict Objects.

(** The two attributes that [add_options_to_courses] assigns to a course
    object. *)
Record assigned : Type := mkAssigned {
  overwrite_name_with : value;
  create_directory_structure : value
}.

(** The body of [if options is not None]: the two attributes as
    [options.get] gives them; [None] is the [AttributeError] of an entry
    that is no dictionary. *)
Definition options_of (options : value) : option assigned :=
  match options with
  | VDict d =>
      Some {| overwrite_name_with :=
                default VNone (dict_get "overwrite_name_with" d);
              create_directory_structure :=
                default (VBool true)
                  (dict_get "create_directory_structure" d) |}
  | _ => None
  end.

(** [for course in courses]; [attributes] holds, for every course object,
    what was assigned to the two attributes. *)
Fixpoint add_options_loop (options_of_courses : value) (courses : list ref)
    (h : heap) (attributes : gmap ref assigned)
    : option (gmap ref assigned) :=
  match courses with
  | [] => Some attributes
  | course :: rest =>
      c ← h !! course;
      options ← get_or_None options_of_courses (pretty (id c));
      match options with
      | None => add_options_loop options_of_courses rest h attributes
      | Some options =>
          a ← options_of options;
          add_options_loop options_of_courses rest h
            (<[course := a]> attributes)
      end
  end.

(** [add_options_to_courses]; the helper is only read.  The result is
    [None] when a [.get] meets a value that is no dictionary, or when
    [courses] holds a reference to no object. *)
Definition add_options_to_courses (courses : list ref) (h : heap)
    (attributes : gmap ref assigned) (st : ConfigHelper.state)
    : option (gmap ref assigned * list ref) :=
  match fst (ConfigHelper.get_options_of_courses st) with
  | inr options_of_courses =>
      attributes ← add_options_loop options_of_courses courses h attributes;
      Some (attributes, courses)
  | inl _ => None
  end.

End CourseOptions.

(** ** config_service/config_service.py *)

Module ConfigService.
Import Py PyDict Objects.

(** What the methods send to the terminal: [print], the methods of [Log]
    (utils/logger.py, not part of this tree) and the prompts of [cutie]
    (utils/cutie.py, not part of this tree) with their arguments. *)
Inductive event : Type :=
| Print (text : string)
| LogInfo (text : string)
| LogWarning (text : string)
| LogDebug (text : string)
| LogError (text : string)
| LogSpecial (text : string)
| PromptYesOrNo (question : string) (default_is_yes : value)
| SelectMultiple (options : list string) (ticked_indices : list nat)
| Input (prompt : string).

(** The world of a [ConfigService]: its [config_helper] and the
    terminal. *)
Record world : Type := mkWorld {
  config_helper : ConfigHelper.state;
  terminal : list event
}.

(** A call of a method of [self.config_helper]. *)
Definition on_helper {A} (m : M ConfigHelper.state A) : M world A :=
  fun w =>
    let '(r, st) := m (config_helper w) in
    (r, {| config_helper := st; terminal := terminal w |}).

Definition emit (e : event) : M world unit :=
  modify (fun w =>
    {| config_helper := config_helper w; terminal := terminal w ++ [e] |}).

Section Methods.

Variable json_dumps : gmap string value -> string.

(** [Log.special_str] of utils/logger.py. *)
Variable special_str : string -> string.

(** [ResultsHandler._should_download_course], here on the two lists as
    the helper returns them. *)
Variable _should_download_course : Z -> value -> value -> bool.

(** [_select_should_download_submissions]; [answer] is what
    [cutie.prompt_yes_or_no] returns. *)
Definition _select_should_download_submissions (answer : bool)
    : M world unit :=
  download_submissions <- on_helper ConfigHelper.get_download_submissions ;;
  emit (Print EmptyString) ;;;
  emit (LogInfo
    ("Submissions are files that you or a teacher have uploaded"
     +:+ " to your assignments. Moodle does not provide an"
     +:+ " interface for downloading information from all"
     +:+ " submissions to a course at once.")) ;;;
  emit (LogWarning
    "Therefore, it may be slow to monitor changes to submissions.") ;;;
  emit (Print EmptyString) ;;;
  emit (PromptYesOrNo
    (special_str "Do you want to download submissions of your assignments?")
    download_submissions) ;;;
  on_helper
    (ConfigHelper.set_property json_dumps "download_submissions"
       (VBool answer)).

(** [_select_should_download_databases] *)
Definition _select_should_download_databases (answer : bool)
    : M world unit :=
  download_databases <- on_helper ConfigHelper.get_download_databases ;;
  emit (Print EmptyString) ;;;
  emit (LogInfo
    ("In the database module of Moodle data can be stored"
     +:+ " structured with information. Often it is also"
     +:+ " possible for students to upload data there.  Because"
     +:+ " the implementation of the downloader has not yet been"
     +:+ " optimized at this point, it is optional to download the"
     +:+ " databases. Currently only files are downloaded, thumbails"
     +:+ " are ignored.")) ;;;
  emit (Print EmptyString) ;;;
  emit (PromptYesOrNo
    (special_str "Do you want to download databases of your courses?")
    download_databases) ;;;
  on_helper
    (ConfigHelper.set_property json_dumps "download_databases"
       (VBool answer)).

(** [_select_should_download_descriptions] *)
Definition _select_should_download_descriptions (answer : bool)
    : M world unit :=
  download_descriptions <- on_helper ConfigHelper.get_download_descriptions ;;
  emit (Print EmptyString) ;;;
  emit (LogInfo
    ("In Moodle courses, descriptions can be added to all kinds"
     +:+ " of resources, such as files, tasks, assignments or simply"
     +:+ " free text. These descriptions are usually unnecessary to"
     +:+ " download because you have already read the information or"
     +:+ " know it from context. However, there are situations where"
     +:+ " it might be interesting to download these descriptions. The"
     +:+ " descriptions are created as Markdown files and can be"
     +:+ " deleted as desired.")) ;;;
  emit (LogDebug
    ("Creating the description files does not take extra time, but they can be annoying"
     +:+ " if they only contain unnecessary information.")) ;;;
  emit (Print EmptyString) ;;;
  emit (PromptYesOrNo
    (special_str
       "Would you like to download descriptions of the courses you have selected?")
    download_descriptions) ;;;
  on_helper
    (ConfigHelper.set_property json_dumps "download_descriptions"
       (VBool answer)).

(** [_select_should_download_linked_files]; the question goes to the
    prompt as it is, without [Log.special_str]. *)
Definition _select_should_download_linked_files (answer : bool)
    : M world unit :=
  download_linked_files <- on_helper ConfigHelper.get_download_linked_files ;;
  emit (Print EmptyString) ;;;
  emit (LogInfo
    ("In Moodle courses the teacher can also link to external"
     +:+ " files. This can be audio, video, text or anything else."
     +:+ " In particular, the teacher can link to Youtube videos.")) ;;;
  emit (LogDebug "To download videos correctly you have to install ffmpeg. ") ;;;
  emit (LogError "These files can increase the download volume considerably.") ;;;
  emit (LogInfo
    ("If you want to filter the external links by their domain,"
     +:+ " you can manually set a whitelist and a blacklist"
     +:+ " (https://github.com/C0D3D3V/Moodle-Downloader-2/"
     +:+ "wiki/Download-(external)-linked-files"
     +:+ " for more details).")) ;;;
  emit (LogWarning
    ("Please note that the size of the external files is determined during the download, so the total size"
     +:+ " changes during the download.")) ;;;
  emit (Print EmptyString) ;;;
  emit (PromptYesOrNo
    "Would you like to download linked files of the courses you have selected?"
    download_linked_files) ;;;
  on_helper
    (ConfigHelper.set_property json_dumps "download_linked_files"
       (VBool answer)).

(** [s.rjust(width)], the padding of the conversions ['%5i'] and the
    like. *)
Definition rjust (width : nat) (s : string) : string :=
  String.concat EmptyString
    (replicate (width - String.length s) " ") +:+ s.

(** ['%5i\t%s' % (course.id, course.fullname)] *)
Definition choice (course : Course) : string :=
  rjust 5 (pretty (id course)) +:+ String (ascii_of_nat 9) EmptyString
  +:+ fullname course.

(** The first loop of [_select_courses_to_download]: the indices of the
    courses that the current lists select, from index [i] on. *)
Fixpoint defaults_from (i : nat) (courses : list Course)
    (download_course_ids dont_download_course_ids : value) : list nat :=
  match courses with
  | [] => []
  | course :: rest =>
      (if _should_download_course (id course) download_course_ids
            dont_download_course_ids
       then [i] else [])
      ++ defaults_from (S i) rest download_course_ids
           dont_download_course_ids
  end.

(** The second loop: the ids of the courses whose index is in
    [selected_courses], from index [i] on. *)
Fixpoint selected_ids_from (i : nat) (courses : list Course)
    (selected_courses : list nat) : list Z :=
  match courses with
  | [] => []
  | course :: rest =>
      (if bool_decide (i ∈ selected_courses) then [id course] else [])
      ++ selected_ids_from (S i) rest selected_courses
  end.

(** [_select_courses_to_download]; [selected_courses] is what
    [cutie.select_multiple] returns. *)
Definition _select_courses_to_download (courses : list Course)
    (selected_courses : list nat) : M world unit :=
  download_course_ids <- on_helper ConfigHelper.get_download_course_ids ;;
  dont_download_course_ids <-
    on_helper ConfigHelper.get_dont_download_course_ids ;;
  emit (Print EmptyString) ;;;
  emit (LogInfo
    ("To avoid downloading all the Moodle courses you are enrolled in, you can select which ones you want"
     +:+ " to download here. ")) ;;;
  emit (Print EmptyString) ;;;
  emit (LogSpecial "Which of the courses should be downloaded?") ;;;
  emit (LogInfo
    "[You can select with the space bar and confirm your selection with the enter key]") ;;;
  emit (Print EmptyString) ;;;
  emit (SelectMultiple (map choice courses)
          (defaults_from 0 courses download_course_ids
             dont_download_course_ids)) ;;;
  on_helper
    (ConfigHelper.set_property json_dumps "download_course_ids"
       (VList (map VInt (selected_ids_from 0 courses selected_courses)))) ;;;
  on_helper
    (ConfigHelper.remove_property json_dumps "dont_download_course_ids").

(** The settings that [_change_settings_of] creates for a course that
    has none. *)
Definition default_settings (course : Course) : list (string * value) :=
  [ ("original_name", VStr (fullname course));
    ("overwrite_name_with", VNone);
    ("create_directory_structure", VBool true) ].

(** [current_course_settings = options_of_courses.get(str(course.id),
    None)], with the default settings when that is [None]; the result is
    [None] for settings that are no dictionary, on which the later
    [.get] raises an [AttributeError]. *)
Definition current_settings (course : Course)
    (options_of_courses : list (string * value))
    : option (list (string * value)) :=
  match dict_get (pretty (id course)) options_of_courses with
  | None | Some VNone => Some (default_settings course)
  | Some (VDict d) => Some d
  | Some _ => None
  end.

(** [if overwrite_name_with == '': overwrite_name_with = None] *)
Definition entered_name (typed : string) : value :=
  if String.eqb typed EmptyString then VNone else VStr typed.

(** [v != name] for a [name] that is a string or [None]. *)
Definition differs_from (v name : value) : bool :=
  match name, v with
  | VNone, VNone => false
  | VStr s, VStr s' => negb (String.eqb s' s)
  | _, _ => true
  end.

(** [answer is not v] for the boolean that the prompt returned. *)
Definition is_not (answer : bool) (v : value) : bool :=
  match v with
  | VBool b => negb (Bool.eqb answer b)
  | _ => true
  end.

(** The first [if] of [_change_settings_of], on the local variables
    [current_course_settings] and [changed]. *)
Definition rename (course : Course) (overwrite_name_with : value)
    (current_course_settings : list (string * value))
    : list (string * value) * bool :=
  if differs_from (VStr (fullname course)) overwrite_name_with
     && differs_from
          (default VNone
             (dict_get "overwrite_name_with" current_course_settings))
          overwrite_name_with
  then (ConfigHelper.dict_update "overwrite_name_with" overwrite_name_with
          current_course_settings, true)
  else (current_course_settings, false).

(** The second [if], after the prompt. *)
Definition restructure (create_directory_structure : bool)
    (local : list (string * value) * bool) : list (string * value) * bool :=
  if is_not create_directory_structure
       (default (VBool true)
          (dict_get "create_directory_structure" (fst local)))
  then (ConfigHelper.dict_update "create_directory_structure"
          (VBool create_directory_structure) (fst local), true)
  else local.

(** [_change_settings_of]; [typed] is what [input] returns and [answer]
    what [cutie.prompt_yes_or_no] returns. *)
Definition _change_settings_of (course : Course)
    (options_of_courses : list (string * value)) (typed : string)
    (answer : bool) (w : world) : option ((exn + unit) * world) :=
  current_course_settings ← current_settings course options_of_courses;
  Some
    ((emit (Input
        (special_str
           ("Enter a new name for this Course [leave blank for "
            +:+ String (ascii_of_nat 34) EmptyString +:+ fullname course
            +:+ String (ascii_of_nat 34) EmptyString +:+ "]:   "))) ;;;
      let overwrite_name_with := entered_name typed in
      let local := rename course overwrite_name_with current_course_settings in
      emit (PromptYesOrNo
        (special_str
           "Should a directory structure be created for this course?")
        (default (VBool true)
           (dict_get "create_directory_structure" (fst local)))) ;;;
      let local := restructure answer local in
      if snd local then
        on_helper
          (ConfigHelper.set_property json_dumps "options_of_courses"
             (VDict
                (ConfigHelper.dict_update (pretty (id course))
                   (VDict (fst local)) options_of_courses)))
      else ret tt) w).

End Methods.

(** For the statements: the events in which the user is asked. *)
Definition is_prompt (e : event) : bool :=
  match e with
  | PromptYesOrNo _ _ | SelectMultiple _ _ | Input _ => true
  | _ => false
  end.

(** For the examples: a text mark in the place of [Log.special_str], two
    courses, and a world whose helper denies the second course. *)
Definition example_special_str (text : string) : string := "* " +:+ text.

Definition example_course : Course :=
  {| id := 7; fullname := "Logic"; files := [] |}.

Definition example_courses : list Course :=
  [ example_course; {| id := 12; fullname := "Algebra"; files := [] |} ].

Definition example_world : world :=
  {| config_helper :=
       {| ConfigHelper._whole_config :=
            {[ "dont_download_course_ids" := VList [VInt 12] ]};
          ConfigHelper.config_path := "config.json";
          ConfigHelper.fs := ∅ |};
     terminal := [] |}.

End ConfigService.

(* ===================================================================== *)
(** * Part II: properties                                                 *)
(* ===================================================================== *)

(** ** ConfigHelper *)

Section ConfigHelperProperties.
Import Py ConfigHelper.

Variable json_dumps : gmap string value -> string.

Lemma get_property_present key v st :
  _whole_config st !! key = Some v ->
  get_property key st = (inr v, st).
Proof.
  intros Hk. unfold get_property, try_except, getitem. now rewrite Hk.
Qed.

Lemma get_property_absent key st :
  _whole_config st !! key = None ->
  get_property key st =
    (inl (ValueError ("The " +:+ key +:+ "-Property is not yet configured!")),
     st).
Proof.
  intros Hk. unfold get_property, try_except, getitem. now rewrite Hk.
Qed.

(** Case analysis on whether [key] is configured, with [get_property]
    rewritten to its result in each case. *)
Ltac by_lookup st key :=
  let Hk := fresh "Hk" in
  destruct (_whole_config st !! key) eqn:Hk;
  [ rewrite (get_property_present _ _ _ Hk)
  | rewrite (get_property_absent _ _ Hk) ].

Lemma get_property_pure key st : world (get_property key) st = st.
Proof.
  unfold world. by_lookup st key; reflexivity.
Qed.

(** A getter of the shape [try: return get_property(key) except
    ValueError: return default]. *)
Lemma default_getter key dflt st :
  try_except (get_property key) is_ValueError (ret dflt) st =
    (inr (default dflt (_whole_config st !! key)), st).
Proof.
  unfold try_except. by_lookup st key; reflexivity.
Qed.

(** A getter of the shape [try: return get_property(key) except
    ValueError: raise ValueError('Not yet configured!')]. *)
Lemma required_getter key st :
  try_except (get_property key) is_ValueError
      (raise (ValueError "Not yet configured!")) st =
    (match _whole_config st !! key with
     | Some v => inr v
     | None => inl (ValueError "Not yet configured!")
     end, st).
Proof.
  unfold try_except. by_lookup st key; reflexivity.
Qed.

Lemma option_or_default_pure key dflt options st :
  world (option_or_default key dflt options) st = st.
Proof.
  unfold world, option_or_default, try_except, bind.
  by_lookup st key; reflexivity.
Qed.

Lemma option_or_default_returns key dflt options st :
  exists d, option_or_default key dflt options st = (inr d, st).
Proof.
  unfold option_or_default, try_except, bind.
  by_lookup st key; now eexists.
Qed.

Lemma get_download_options_pure st : world get_download_options st = st.
Proof.
  unfold world, get_download_options, bind.
  destruct (option_or_default_returns "download_linked_files"
              (VBool false) [] st) as [d1 ->].
  destruct (option_or_default_returns "download_domains_whitelist"
              (VList []) d1 st) as [d2 ->].
  destruct (option_or_default_returns "download_domains_blacklist"
              (VList []) d2 st) as [d3 ->].
  reflexivity.
Qed.

Lemma set_property_spec key v st :
  set_property json_dumps key v st = (inr tt, stored json_dumps key v st).
Proof. reflexivity. Qed.

Lemma get_filename_character_map_spec st :
  get_filename_character_map json_dumps st =
    match _whole_config st !! "filename_character_map" with
    | Some v => (inr v, st)
    | None =>
        (inr windows_map,
         stored json_dumps "filename_character_map" windows_map st)
    end.
Proof.
  unfold get_filename_character_map, try_except.
  destruct (_whole_config st !! "filename_character_map") as [v|] eqn:Hk.
  - now rewrite (get_property_present _ _ _ Hk).
  - rewrite (get_property_absent _ _ Hk). cbn [is_ValueError].
    unfold bind, set_default_filename_character_map.
    rewrite set_property_spec.
    apply get_property_present. cbn. apply lookup_insert_eq.
Qed.

(** C9: when the loaded configuration lacks the key of a getter, the
    getters that feed the filter return a default and leave the helper
    untouched: [False] for [get_download_submissions],
    [get_download_descriptions], [get_download_databases] and
    [get_download_linked_files], the empty list for
    [get_download_course_ids] and [get_dont_download_course_ids];
    [get_token], [get_moodle_domain] and [get_moodle_path] raise a
    [ValueError]. *)
Theorem getters_on_missing_key st :
  (_whole_config st !! "download_submissions" = None ->
     get_download_submissions st = (inr (VBool false), st)) /\
  (_whole_config st !! "download_descriptions" = None ->
     get_download_descriptions st = (inr (VBool false), st)) /\
  (_whole_config st !! "download_databases" = None ->
     get_download_databases st = (inr (VBool false), st)) /\
  (_whole_config st !! "download_linked_files" = None ->
     get_download_linked_files st = (inr (VBool false), st)) /\
  (_whole_config st !! "download_course_ids" = None ->
     get_download_course_ids st = (inr (VList []), st)) /\
  (_whole_config st !! "dont_download_course_ids" = None ->
     get_dont_download_course_ids st = (inr (VList []), st)) /\
  (_whole_config st !! "token" = None ->
     get_token st = (inl (ValueError "Not yet configured!"), st)) /\
  (_whole_config st !! "moodle_domain" = None ->
     get_moodle_domain st = (inl (ValueError "Not yet configured!"), st)) /\
  (_whole_config st !! "moodle_path" = None ->
     get_moodle_path st = (inl (ValueError "Not yet configured!"), st)).
Proof.
  unfold get_download_submissions, get_download_descriptions,
    get_download_databases, get_download_linked_files,
    get_download_course_ids, get_dont_download_course_ids,
    get_token, get_moodle_domain, get_moodle_path.
  repeat split; intros Hk;
    rewrite ?default_getter, ?required_getter, Hk; reflexivity.
Qed.

(** C10: [get_filename_character_map] returns the stored map when the
    key is present and leaves the helper untouched; when the key is
    absent it stores the Windows map through [set_property], which also
    rewrites the configuration file, and returns that map, so that the
    key is present after every call.  Every other getter leaves the
    helper and the file system as they were. *)
Theorem only_filename_character_map_writes st :
  get_filename_character_map json_dumps st =
    match _whole_config st !! "filename_character_map" with
    | Some v => (inr v, st)
    | None =>
        (inr windows_map,
         stored json_dumps "filename_character_map" windows_map st)
    end
  /\ is_Some (_whole_config (world (get_filename_character_map json_dumps) st)
                !! "filename_character_map")
  /\ fs (stored json_dumps "filename_character_map" windows_map st)
       !! config_path st
       = Some (json_dumps (<["filename_character_map" := windows_map]>
                             (_whole_config st)))
  /\ (forall key, world (get_property key) st = st)
  /\ world get_download_submissions st = st
  /\ world get_download_descriptions st = st
  /\ world get_download_databases st = st
  /\ world get_download_course_ids st = st
  /\ world get_token st = st
  /\ world get_moodle_domain st = st
  /\ world get_moodle_path st = st
  /\ world get_options_of_courses st = st
  /\ world get_dont_download_course_ids st = st
  /\ world get_download_linked_files st = st
  /\ world get_download_options st = st.
Proof.
  split; [apply get_filename_character_map_spec|].
  split.
  { unfold world. rewrite get_filename_character_map_spec.
    destruct (_whole_config st !! "filename_character_map") as [v|] eqn:Hk.
    - cbn. rewrite Hk. now eexists.
    - cbn. rewrite lookup_insert_eq. now eexists. }
  split; [cbn; apply lookup_insert_eq|].
  split; [intros key; apply get_property_pure|].
  unfold world, get_download_submissions, get_download_descriptions,
    get_download_databases, get_download_linked_files,
    get_download_course_ids, get_dont_download_course_ids,
    get_token, get_moodle_domain, get_moodle_path, get_options_of_courses.
  rewrite !default_getter, !required_getter.
  repeat split. apply get_download_options_pure.
Qed.

End ConfigHelperProperties.

Lemma getters_on_missing_key_witness :
  ConfigHelper.get_download_submissions ConfigHelper.example_state
  = (inr (Py.VBool false), ConfigHelper.example_state)
  /\ ConfigHelper.get_download_descriptions ConfigHelper.example_state
     = (inr (Py.VBool false), ConfigHelper.example_state)
  /\ ConfigHelper.get_download_databases ConfigHelper.example_state
     = (inr (Py.VBool false), ConfigHelper.example_state)
  /\ ConfigHelper.get_download_linked_files ConfigHelper.example_state
     = (inr (Py.VBool false), ConfigHelper.example_state)
  /\ ConfigHelper.get_download_course_ids ConfigHelper.example_state
     = (inr (Py.VList []), ConfigHelper.example_state)
  /\ ConfigHelper.get_dont_download_course_ids ConfigHelper.example_state
     = (inr (Py.VList []), ConfigHelper.example_state)
  /\ ConfigHelper.get_token ConfigHelper.example_state
     = (inl (Py.ValueError "Not yet configured!"), ConfigHelper.example_state)
  /\ ConfigHelper.get_moodle_domain ConfigHelper.example_state
     = (inl (Py.ValueError "Not yet configured!"), ConfigHelper.example_state)
  /\ ConfigHelper.get_moodle_path ConfigHelper.example_state
     = (inl (Py.ValueError "Not yet configured!"), ConfigHelper.example_state).
Proof.
  destruct (getters_on_missing_key ConfigHelper.example_state)
    as (H1 & H2 & H3 & H4 & H5 & H6 & H7 & H8 & H9).
  refine (conj (H1 _) (conj (H2 _) (conj (H3 _) (conj (H4 _) (conj (H5 _)
            (conj (H6 _) (conj (H7 _) (conj (H8 _) (H9 _)))))))));
    vm_compute; reflexivity.
Defined.

(** ** MoodleService._filter_courses *)

Section FilterProperties.
Import Objects MoodleService.

Variable _should_download_course : Z -> list Z -> list Z -> bool.
Variable download_course_ids : list Z.
Variable dont_download_course_ids : list Z.
Variable download_submissions : bool.
Variable download_descriptions : bool.
Variable download_databases : bool.

Abbreviation enabled :=
  (enabled download_submissions download_descriptions download_databases).
Abbreviation filtered_heap :=
  (filtered_heap download_submissions download_descriptions download_databases).
Abbreviation selected :=
  (selected _should_download_course download_course_ids
     dont_download_course_ids download_submissions download_descriptions
     download_databases).
Abbreviation filter_course :=
  (filter_course _should_download_course download_course_ids
     dont_download_course_ids download_submissions download_descriptions
     download_databases).
Abbreviation filter_loop :=
  (filter_loop _should_download_course download_course_ids
     dont_download_course_ids download_submissions download_descriptions
     download_databases).

Lemma without_content_type_filter ty fs :
  without_content_type ty fs =
    List.filter (fun f => negb (String.eqb (content_type f) ty)) fs.
Proof. induction fs as [|f fs IH]; cbn; [reflexivity|]. now rewrite IH. Qed.

Lemma filter_twice {A} (p q : A -> bool) l :
  List.filter q (List.filter p l) = List.filter (fun x => p x && q x) l.
Proof.
  induction l as [|x l IH]; cbn; [reflexivity|].
  destruct (p x); cbn; [destruct (q x)|]; now rewrite IH.
Qed.

Lemma filter_all {A} (l : list A) : List.filter (fun _ => true) l = l.
Proof. induction l as [|x l IH]; cbn; congruence. Qed.

Lemma set_files_same c : set_files (files c) c = c.
Proof. now destruct c. Qed.

Lemma three_filters fs :
  List.filter
    (fun f => download_databases
              || negb (String.eqb (content_type f) "database_file"))
    (List.filter
       (fun f => download_descriptions
                 || negb (String.eqb (content_type f) "description"))
       (List.filter
          (fun f => download_submissions
                    || negb (String.eqb (content_type f) "submission_file"))
          fs))
  = List.filter enabled fs.
Proof.
  rewrite !filter_twice. apply List.filter_ext. intros f.
  unfold MoodleService.enabled. now rewrite andb_assoc.
Qed.

Lemma drop_unless_spec toggle ty course (h : heap) c :
  h !! course = Some c ->
  drop_unless toggle ty course h =
    Some (<[course :=
             set_files
               (List.filter
                  (fun f => toggle || negb (String.eqb (content_type f) ty))
                  (files c)) c]> h).
Proof.
  intros Hc. unfold drop_unless. destruct toggle; cbn.
  - rewrite filter_all, set_files_same. now rewrite insert_id.
  - rewrite Hc. cbn. now rewrite without_content_type_filter.
Qed.

Lemma filter_course_spec course (h : heap) c :
  h !! course = Some c ->
  filter_course course h =
    Some (<[course := set_files (List.filter enabled (files c)) c]> h,
          _should_download_course (id c) download_course_ids
            dont_download_course_ids
          && bool_decide (0 < length (List.filter enabled (files c)))).
Proof.
  intros Hc. unfold MoodleService.filter_course.
  rewrite (drop_unless_spec _ _ _ _ _ Hc). cbn.
  erewrite drop_unless_spec by apply lookup_insert_eq. cbn.
  erewrite drop_unless_spec by apply lookup_insert_eq. cbn.
  rewrite lookup_insert_eq. cbn.
  rewrite !insert_insert_eq, !three_filters.
  reflexivity.
Qed.

Lemma enabled_idempotent fs :
  List.filter enabled (List.filter enabled fs) = List.filter enabled fs.
Proof.
  rewrite filter_twice. apply List.filter_ext. intros f.
  now destruct (enabled f).
Qed.

Lemma filtered_heap_lookup touched (h : heap) l :
  filtered_heap touched h !! l =
    (fun c => if bool_decide (l ∈ touched)
              then set_files (List.filter enabled (files c)) c else c)
      <$> h !! l.
Proof.
  unfold MoodleService.filtered_heap. rewrite map_lookup_imap.
  now destruct (h !! l).
Qed.

Lemma filtered_heap_nil (h : heap) : filtered_heap [] h = h.
Proof.
  apply map_eq. intros l. rewrite filtered_heap_lookup.
  destruct (h !! l); cbn; [|reflexivity].
  rewrite bool_decide_eq_false_2; [reflexivity|]. apply not_elem_of_nil.
Qed.

Lemma filtered_heap_snoc touched course (h : heap) c :
  h !! course = Some c ->
  <[course := set_files (List.filter enabled (files c)) c]>
    (filtered_heap touched h) = filtered_heap (touched ++ [course]) h.
Proof.
  intros Hc. apply map_eq. intros l. rewrite filtered_heap_lookup.
  destruct (decide (course = l)) as [<-|Hne].
  - rewrite lookup_insert_eq, Hc. cbn.
    rewrite bool_decide_eq_true_2; [reflexivity|].
    apply elem_of_app. right. apply list_elem_of_singleton. reflexivity.
  - rewrite lookup_insert_ne by assumption. rewrite filtered_heap_lookup.
    destruct (h !! l); cbn; [|reflexivity].
    rewrite (bool_decide_ext (l ∈ (touched ++ [course])%list) (l ∈ touched));
      [reflexivity|].
    rewrite elem_of_app, list_elem_of_singleton. intuition congruence.
Qed.

Lemma filter_loop_spec changes : forall touched (h : heap) acc,
  (forall l, l ∈ changes -> is_Some (h !! l)) ->
  filter_loop changes (filtered_heap touched h) acc =
    Some (filtered_heap (touched ++ changes) h,
          acc ++ List.filter (selected h) changes).
Proof.
  induction changes as [|course rest IH]; intros touched h acc Hvalid.
  - cbn. now rewrite !app_nil_r.
  - destruct (Hvalid course) as [c Hc]; [left|].
    cbn [MoodleService.filter_loop List.filter].
    pose proof (filtered_heap_lookup touched h course) as Hl.
    rewrite Hc in Hl. cbn in Hl.
    rewrite (filter_course_spec _ _ _ Hl). cbn.
    assert (Hfiles :
      List.filter enabled
        (files (if bool_decide (course ∈ touched)
                then set_files (List.filter enabled (files c)) c else c))
      = List.filter enabled (files c)).
    { destruct (bool_decide (course ∈ touched)); cbn;
        [apply enabled_idempotent | reflexivity]. }
    assert (Hid :
      id (if bool_decide (course ∈ touched)
          then set_files (List.filter enabled (files c)) c else c) = id c).
    { now destruct (bool_decide (course ∈ touched)). }
    rewrite Hfiles, Hid.
    assert (Hheap :
      <[course :=
          set_files (List.filter enabled (files c))
            (if bool_decide (course ∈ touched)
             then set_files (List.filter enabled (files c)) c else c)]>
        (filtered_heap touched h) = filtered_heap (touched ++ [course]) h).
    { rewrite <- (filtered_heap_snoc touched course h c Hc). f_equal.
      now destruct (bool_decide (course ∈ touched)). }
    rewrite Hheap.
    unfold MoodleService.selected at 1. rewrite Hc.
    destruct (_should_download_course (id c) download_course_ids
                dont_download_course_ids
              && bool_decide (0 < length (List.filter enabled (files c)))).
    + rewrite IH by (intros l Hin; apply Hvalid; now right).
      now rewrite <- !app_assoc.
    + rewrite IH by (intros l Hin; apply Hvalid; now right).
      now rewrite <- !app_assoc.
Qed.

Lemma filter_courses_spec changes (h : heap) :
  (forall l, l ∈ changes -> is_Some (h !! l)) ->
  _filter_courses _should_download_course download_course_ids
      dont_download_course_ids download_submissions download_descriptions
      download_databases changes h =
    Some (filtered_heap changes h, List.filter (selected h) changes).
Proof.
  intros Hvalid. unfold _filter_courses.
  rewrite <- (filtered_heap_nil h) at 1.
  now rewrite (filter_loop_spec changes [] h [] Hvalid).
Qed.

Lemma filter_sublist {A} (p : A -> bool) (l : list A) :
  sublist (List.filter p l) l.
Proof.
  induction l as [|x l IH]; cbn; [constructor|].
  destruct (p x); now constructor.
Qed.

Lemma toggle_spec (toggle : bool) (x y : string) :
  toggle = true \/ x <> y <-> (x = y -> toggle = true).
Proof.
  split.
  - intros [H|H] Heq; [assumption | contradiction].
  - intros H. destruct toggle; [now left | right].
    intros Heq. discriminate (H Heq).
Qed.

Lemma enabled_spec file :
  enabled file = true <->
    (content_type file = "submission_file" -> download_submissions = true)
    /\ (content_type file = "description" -> download_descriptions = true)
    /\ (content_type file = "database_file" -> download_databases = true).
Proof.
  unfold MoodleService.enabled.
  rewrite !andb_true_iff, !orb_true_iff, !negb_true_iff, !String.eqb_neq.
  rewrite !toggle_spec. tauto.
Qed.

(** C1, as the code has it: the filter returns a list that it builds from
    scratch, but the list holds the course objects it was given, and the
    filter assigns to their [files] attribute.  After the call the course
    behind every reference of [changes] has lost the files of the disabled
    categories, and keeps its id, its name and its other files in their
    order; every other object of the heap is as before; with the three
    toggles on, no object changes. *)
Theorem filter_courses_assigns_files_in_place changes (h : heap) :
  (forall l, l ∈ changes -> is_Some (h !! l)) ->
  exists h' out,
    _filter_courses _should_download_course download_course_ids
      dont_download_course_ids download_submissions download_descriptions
      download_databases changes h = Some (h', out)
    /\ sublist out changes
    /\ (forall l c, l ∈ changes -> h !! l = Some c ->
          h' !! l = Some (set_files (List.filter enabled (files c)) c))
    /\ (forall l, l ∉ changes -> h' !! l = h !! l)
    /\ (download_submissions = true -> download_descriptions = true ->
          download_databases = true -> h' = h).
Proof.
  intros Hvalid. eexists _, _.
  split; [apply (filter_courses_spec _ _ Hvalid)|].
  split; [apply filter_sublist|].
  split; [|split].
  - intros l c Hin Hc. rewrite filtered_heap_lookup, Hc. cbn.
    now rewrite bool_decide_eq_true_2.
  - intros l Hnin. rewrite filtered_heap_lookup.
    rewrite bool_decide_eq_false_2 by assumption. now destruct (h !! l).
  - intros Hs Hd Hdb. apply map_eq. intros l. rewrite filtered_heap_lookup.
    destruct (h !! l) as [c|]; cbn; [|reflexivity].
    destruct (bool_decide (l ∈ changes)); [|reflexivity].
    f_equal.
    rewrite (List.filter_ext enabled (fun _ => true)).
    + rewrite filter_all. apply set_files_same.
    + intros f. unfold MoodleService.enabled. now rewrite Hs, Hd, Hdb.
Qed.

(** C2: the files of a disabled category are dropped first, each toggle
    deciding on its own category only, and the course-level selection
    follows: the result lists, in the order of the input, exactly the
    courses that the allow-list and deny-list select and whose file list is
    not empty after the category filter; the files of every course are the
    ones that passed the category filter. *)
Theorem filter_courses_categories_then_selection changes (h : heap) :
  (forall l, l ∈ changes -> is_Some (h !! l)) ->
  exists h' out,
    _filter_courses _should_download_course download_course_ids
      dont_download_course_ids download_submissions download_descriptions
      download_databases changes h = Some (h', out)
    /\ out = List.filter (selected h) changes
    /\ (forall l, l ∈ out <->
          l ∈ changes /\
          exists c, h !! l = Some c
            /\ _should_download_course (id c) download_course_ids
                 dont_download_course_ids = true
            /\ List.filter enabled (files c) <> [])
    /\ (forall l c, l ∈ changes -> h !! l = Some c ->
          exists c', h' !! l = Some c' /\ id c' = id c
            /\ forall f, f ∈ files c' <->
                 f ∈ files c
                 /\ (content_type f = "submission_file" ->
                       download_submissions = true)
                 /\ (content_type f = "description" ->
                       download_descriptions = true)
                 /\ (content_type f = "database_file" ->
                       download_databases = true)).
Proof.
  intros Hvalid. eexists _, _.
  split; [apply (filter_courses_spec _ _ Hvalid)|].
  split; [reflexivity|]. split.
  - intros l. rewrite list_elem_of_In, List.filter_In, <- list_elem_of_In.
    unfold MoodleService.selected. split.
    + intros [Hin Hsel]. split; [assumption|].
      destruct (h !! l) as [c|]; [|discriminate]. exists c.
      apply andb_true_iff in Hsel as [Hs Hlen].
      apply bool_decide_eq_true in Hlen.
      repeat split; [assumption|]. intros Hnil. rewrite Hnil in Hlen.
      cbn in Hlen. lia.
    + intros [Hin (c & Hc & Hs & Hne)]. split; [assumption|].
      rewrite Hc, Hs. cbn. apply bool_decide_eq_true.
      destruct (List.filter enabled (files c)); [congruence|cbn; lia].
  - intros l c Hin Hc. eexists. split.
    + rewrite filtered_heap_lookup, Hc. cbn.
      rewrite bool_decide_eq_true_2 by assumption. reflexivity.
    + split; [reflexivity|]. intros f. cbn.
      rewrite list_elem_of_In, List.filter_In, <- list_elem_of_In.
      now rewrite enabled_spec.
Qed.

End FilterProperties.

(** C1, as the spec words it, fails: with submissions disabled, the course
    object that the caller handed in has lost its submission file after
    the call, and the returned list holds that very object. *)
Lemma filter_courses_changes_input_course :
  exists h',
    MoodleService._filter_courses MoodleService.example_selection [] []
      false true true [1%positive] MoodleService.example_heap
    = Some (h', [1%positive])
    /\ Objects.files <$> MoodleService.example_heap !! 1%positive
       = Some [MoodleService.example_submission; MoodleService.example_slides]
    /\ Objects.files <$> h' !! 1%positive
       = Some [MoodleService.example_slides]
    /\ h' !! 1%positive <> MoodleService.example_heap !! 1%positive.
Proof.
  eexists. split; [vm_compute; reflexivity|].
  split; [vm_compute; reflexivity|].
  split; [vm_compute; reflexivity|].
  vm_compute. discriminate.
Qed.

Lemma filter_courses_assigns_files_in_place_witness :
  (forall l, l ∈ [1%positive; 1%positive] ->
     is_Some (MoodleService.example_heap !! l))
  /\ exists h' out,
    MoodleService._filter_courses MoodleService.example_selection [7%Z] []
      false true false [1%positive; 1%positive] MoodleService.example_heap
    = Some (h', out)
    /\ sublist out [1%positive; 1%positive]
    /\ (forall l c, l ∈ [1%positive; 1%positive] ->
          MoodleService.example_heap !! l = Some c ->
          h' !! l =
            Some (Objects.set_files
                    (List.filter (MoodleService.enabled false true false)
                       (Objects.files c)) c))
    /\ (forall l, l ∉ [1%positive; 1%positive] ->
          h' !! l = MoodleService.example_heap !! l)
    /\ (false = true -> true = true -> false = true ->
          h' = MoodleService.example_heap).
Proof.
  assert (Hvalid : forall l, l ∈ [1%positive; 1%positive] ->
            is_Some (MoodleService.example_heap !! l)).
  { intros l Hl. rewrite !elem_of_cons in Hl.
    destruct Hl as [->|[->|Hl]]; [vm_compute; eauto ..|].
    now apply not_elem_of_nil in Hl. }
  split; [exact Hvalid|].
  exact (filter_courses_assigns_files_in_place
           MoodleService.example_selection [7%Z] [] false true false
           [1%positive; 1%positive] MoodleService.example_heap Hvalid).
Defined.

Lemma filter_courses_categories_then_selection_witness :
  (forall l, l ∈ [1%positive] -> is_Some (MoodleService.example_heap !! l))
  /\ exists h' out,
    MoodleService._filter_courses MoodleService.example_selection [7%Z] []
      false true false [1%positive] MoodleService.example_heap
    = Some (h', out)
    /\ out = [1%positive].
Proof.
  assert (Hvalid : forall l, l ∈ [1%positive] ->
            is_Some (MoodleService.example_heap !! l)).
  { intros l Hl. apply list_elem_of_singleton in Hl as ->.
    vm_compute; eauto. }
  split; [exact Hvalid|].
  destruct (filter_courses_categories_then_selection
              MoodleService.example_selection [7%Z] [] false true false
              [1%positive] MoodleService.example_heap Hvalid)
    as (h' & out & Hrun & Hout & _).
  exists h', out. split; [exact Hrun|]. rewrite Hout. vm_compute. reflexivity.
Defined.

(** ** The reconciliation engine *)

Section ReconciliationProperties.
Import Reconciliation.

Lemma index_lookup_Some i index o :
  index_lookup i index = Some o -> o ∈ index /\ identity o = i.
Proof.
  induction index as [|x index IH]; cbn; [discriminate|].
  case_bool_decide as Hx.
  - intros [= ->]. split; [left | assumption].
  - intros Hl. destruct (IH Hl). split; [now right | assumption].
Qed.

Lemma index_lookup_None i index :
  index_lookup i index = None <-> i ∉ identities index.
Proof.
  induction index as [|x index IH]; cbn.
  - split; [intros _; apply not_elem_of_nil | reflexivity].
  - rewrite not_elem_of_cons. case_bool_decide as Hx.
    + split; [discriminate | intros [Hne _]; congruence].
    + rewrite IH. split; [intros H; split; [congruence | assumption] | tauto].
Qed.

Lemma identity_elem (f : File) fs : f ∈ fs -> identity f ∈ identities fs.
Proof. intros Hin. unfold identities. now apply list_elem_of_fmap_2. Qed.

Lemma identities_inj fs (a b : File) :
  NoDup (identities fs) -> a ∈ fs -> b ∈ fs -> identity a = identity b ->
  a = b.
Proof.
  induction fs as [|x fs IH]; cbn; intros Hnd Ha Hb Heq.
  - now apply not_elem_of_nil in Ha.
  - apply NoDup_cons in Hnd as [Hx Hnd].
    apply elem_of_cons in Ha as [->|Ha]; apply elem_of_cons in Hb as [->|Hb].
    + reflexivity.
    + exfalso. apply Hx. rewrite Heq. now apply identity_elem.
    + exfalso. apply Hx. rewrite <- Heq. now apply identity_elem.
    + now apply IH.
Qed.

Lemma index_lookup_elem index o :
  NoDup (identities index) -> o ∈ index ->
  index_lookup (identity o) index = Some o.
Proof.
  intros Hnd Hin.
  destruct (index_lookup (identity o) index) as [o'|] eqn:Hl.
  - apply index_lookup_Some in Hl as [Hin' Heq].
    f_equal. now apply (identities_inj index).
  - apply index_lookup_None in Hl. exfalso. apply Hl. now apply identity_elem.
Qed.

Lemma index_remove_elem i index o :
  o ∈ index_remove i index <-> o ∈ index /\ identity o <> i.
Proof.
  induction index as [|x index IH]; cbn.
  - split; [intros H; now apply not_elem_of_nil in H | intros [H _]].
    now apply not_elem_of_nil in H.
  - case_bool_decide as Hx; rewrite ?elem_of_cons, IH, ?elem_of_cons.
    + split; [tauto|]. intros [[->|Hin] Hne]; [congruence | tauto].
    + split; [intros [->|[? ?]]; tauto | tauto].
Qed.

Lemma identities_remove i index x :
  x ∈ identities (index_remove i index) <-> x ∈ identities index /\ x <> i.
Proof.
  unfold identities. rewrite !list_elem_of_fmap. split.
  - intros (o & -> & Hin). apply index_remove_elem in Hin as [Hin Hne].
    split; [now exists o | assumption].
  - intros [(o & -> & Hin) Hne]. exists o. split; [reflexivity|].
    now apply index_remove_elem.
Qed.

Lemma index_remove_NoDup i index :
  NoDup (identities index) -> NoDup (identities (index_remove i index)).
Proof.
  induction index as [|x index IH]; cbn; [trivial|].
  intros Hnd. apply NoDup_cons in Hnd as [Hx Hnd].
  case_bool_decide; [now apply IH|]. cbn. apply NoDup_cons. split.
  - rewrite identities_remove. tauto.
  - now apply IH.
Qed.

Lemma index_remove_absent i index :
  i ∉ identities index -> index_remove i index = index.
Proof.
  induction index as [|x index IH]; cbn; [reflexivity|].
  rewrite not_elem_of_cons. intros [Hne Hnin].
  rewrite bool_decide_eq_false_2 by congruence. now rewrite IH.
Qed.

Lemma same_content_spec n o :
  same_content n o = true <->
    content_hash o = content_hash n /\ size o = size n.
Proof.
  unfold same_content.
  now rewrite andb_true_iff, String.eqb_eq, bool_decide_eq_true.
Qed.

Lemma smallest_path_elem candidates m :
  smallest_path candidates = Some m -> m ∈ candidates.
Proof.
  revert m. induction candidates as [|c rest IH]; cbn; [discriminate|].
  intros m. destruct (smallest_path rest) as [m'|].
  - destruct (String.leb (path c) (path m')); intros [= <-];
      [left | right; now apply IH].
  - intros [= <-]. left.
Qed.

Lemma secondary_match_Some n remaining o :
  secondary_match n remaining = Some o ->
  o ∈ remaining /\ same_content n o = true.
Proof.
  intros Hm. apply smallest_path_elem in Hm.
  apply list_elem_of_In, List.filter_In in Hm as [Hin Hsame].
  split; [now apply list_elem_of_In | assumption].
Qed.

Lemma classify_origin o n e old_files new_files :
  o ∈ old_files -> n ∈ new_files -> identity o = identity n ->
  classify o n = Some e -> entry_of old_files new_files e.
Proof.
  intros Ho Hn Hid. unfold classify.
  destruct (String.eqb (content_hash o) (content_hash n)) eqn:Hh; cbn.
  - apply String.eqb_eq in Hh.
    destruct (String.eqb (path o) (path n)) eqn:Hp; cbn; [discriminate|].
    apply String.eqb_neq in Hp. intros [= <-]. now apply of_renamed.
  - apply String.eqb_neq in Hh. intros [= <-]. now apply of_modified.
Qed.

Lemma entry_of_mono old_files new_files old_files' new_files' e :
  (forall o, o ∈ old_files -> o ∈ old_files') ->
  (forall n, n ∈ new_files -> n ∈ new_files') ->
  entry_of old_files new_files e -> entry_of old_files' new_files' e.
Proof.
  intros Ho Hn He. destruct He.
  - apply of_new; auto.
  - apply of_modified; auto.
  - apply of_renamed; auto.
  - apply of_reissued; auto.
  - apply of_deleted; auto.
Qed.

(** Every entry that [reconcile] emits is built from a remaining old file,
    a new file, or a matched pair of them. *)
Lemma reconcile_origin new_files : forall remaining e,
  e ∈ reconcile remaining new_files -> entry_of remaining new_files e.
Proof.
  induction new_files as [|n rest IH]; intros remaining e; cbn.
  - intros Hin. apply list_elem_of_fmap in Hin as (o & -> & Ho).
    now apply of_deleted.
  - destruct (index_lookup (identity n) remaining) as [o|] eqn:Hl.
    + apply index_lookup_Some in Hl as [Ho Hid].
      rewrite elem_of_app. intros [Hin|Hin].
      * destruct (classify o n) as [e'|] eqn:Hc; cbn in Hin.
        -- apply list_elem_of_singleton in Hin as ->.
           apply (classify_origin o n); [assumption | left | assumption ..].
        -- now apply not_elem_of_nil in Hin.
      * apply IH in Hin. revert Hin. apply entry_of_mono.
        -- intros x Hx. now apply index_remove_elem in Hx as [Hx _].
        -- intros x Hx. now right.
    + apply index_lookup_None in Hl.
      destruct (secondary_match n remaining) as [o|] eqn:Hs.
      * apply secondary_match_Some in Hs as [Ho Hsame].
        rewrite elem_of_cons. intros [->|Hin].
        -- apply of_reissued; [assumption | left | | assumption].
           intros Heq. apply Hl. rewrite <- Heq. now apply identity_elem.
        -- apply IH in Hin. revert Hin. apply entry_of_mono.
           ++ intros x Hx. now apply index_remove_elem in Hx as [Hx _].
           ++ intros x Hx. now right.
      * rewrite elem_of_cons. intros [->|Hin].
        -- apply of_new. left.
        -- apply IH in Hin. revert Hin. apply entry_of_mono.
           ++ auto.
           ++ intros x Hx. now right.
Qed.

Lemma first_duplicate_None fs :
  first_duplicate fs = None <-> NoDup (identities fs).
Proof.
  induction fs as [|f fs IH]; cbn.
  - split; [intros _; constructor | reflexivity].
  - rewrite NoDup_cons. case_bool_decide as Hin.
    + split; [discriminate | tauto].
    + rewrite IH. tauto.
Qed.

(** What a successful [diff] returns: every course of the new snapshot,
    free of duplicate identities, with the entries of [reconcile]. *)
Lemma diff_inr_inv old new : forall cs,
  diff old new = inr cs ->
  forall c es, (c, es) ∈ cs ->
    c ∈ new /\ NoDup (identities (files c))
    /\ es = reconcile (stored_files old (id c)) (files c).
Proof.
  induction new as [|c0 rest IH]; cbn; intros cs.
  - intros [= <-] c es Hin. now apply not_elem_of_nil in Hin.
  - unfold diff_course.
    destruct (first_duplicate (files c0)) eqn:Hd; [discriminate|].
    destruct (diff old rest) as [e|cs'] eqn:Hrest; [discriminate|].
    intros [= <-] c es Hin. apply elem_of_cons in Hin as [[= -> ->]|Hin].
    + split; [left|]. split; [now apply first_duplicate_None | reflexivity].
    + destruct (IH cs' eq_refl c es Hin) as (Hc & Hnd & Hes).
      split; [now right | split; assumption].
Qed.

Lemma stored_files_NoDup old course_id :
  wf_state old -> NoDup (identities (stored_files old course_id)).
Proof.
  intros [_ Hfiles]. induction old as [|c old IH]; cbn; [constructor|].
  apply Forall_cons in Hfiles as [Hc Hold].
  case_bool_decide; [assumption | now apply IH].
Qed.

(** C7: every Moved entry of a change-set that [diff] produces has the old
    record as its base file and the new record as its linked file, which
    is never absent; the console prints such an entry with both paths. *)
Theorem moved_entry_has_both_endpoints old new cs c es e :
  diff old new = inr cs -> (c, es) ∈ cs -> e ∈ es -> kind e = Moved ->
  exists o n,
    base_file e = o /\ linked_file e = Some n
    /\ o ∈ stored_files old (id c) /\ n ∈ files c
    /\ ConsoleService.report_file (Report.as_file e) =
         ConsoleService.Print
           (ConsoleService.COLOR_SEQ ConsoleService.CYAN +:+ "<->"
            +:+ ConsoleService.TAB
            +:+ (path o +:+ ConsoleService.RESET_SEQ
                 +:+ ConsoleService.COLOR_SEQ ConsoleService.GREEN
                 +:+ " ==> " +:+ path n +:+ ConsoleService.RESET_SEQ)).
Proof.
  intros Hdiff Hcs He Hkind.
  destruct (diff_inr_inv _ _ _ Hdiff _ _ Hcs) as (_ & _ & ->).
  apply reconcile_origin in He.
  destruct He as [n Hn|o n Ho Hn Hid Hh|o n Ho Hn Hid Hh Hp|o n Ho Hn Hid Hs
                 |o Ho];
    try discriminate Hkind; exists o, n; repeat split; assumption.
Qed.

Lemma occurrences_cons i e es :
  occurrences i (e :: es) =
    (if mentions i e then 1 else 0) + occurrences i es.
Proof. unfold occurrences. cbn. now destruct (mentions i e). Qed.

Lemma occurrences_app i es1 es2 :
  occurrences i (es1 ++ es2) = occurrences i es1 + occurrences i es2.
Proof. unfold occurrences. now rewrite List.filter_app, length_app. Qed.

Lemma occurrences_none i es :
  (forall e, e ∈ es -> mentions i e = false) -> occurrences i es = 0.
Proof.
  induction es as [|e es IH]; intros Hes; [reflexivity|].
  rewrite occurrences_cons, (Hes e) by left.
  apply IH. intros e' He'. apply Hes. now right.
Qed.

Lemma mentions_origin i e old_files new_files :
  entry_of old_files new_files e -> mentions i e = true ->
  i ∈ identities old_files \/ i ∈ identities new_files.
Proof.
  unfold mentions.
  intros [n Hn|o n Ho Hn Hid Hh|o n Ho Hn Hid Hh Hp|o n Ho Hn Hid Hs|o Ho];
    cbn; rewrite ?orb_false_r, ?orb_true_iff, ?bool_decide_eq_true.
  - intros <-. right. now apply identity_elem.
  - intros <-. right. now apply identity_elem.
  - intros [<-|<-]; [left | right]; now apply identity_elem.
  - intros [<-|<-]; [left | right]; now apply identity_elem.
  - intros <-. left. now apply identity_elem.
Qed.

(** An identity that occurs neither among the remaining old files nor among
    the new files occurs in no entry. *)
Lemma absent_silent i remaining new_files :
  i ∉ identities remaining -> i ∉ identities new_files ->
  occurrences i (reconcile remaining new_files) = 0.
Proof.
  intros Hr Hn. apply occurrences_none. intros e He.
  apply reconcile_origin in He.
  destruct (mentions i e) eqn:Hm; [|reflexivity].
  destruct (mentions_origin i e _ _ He Hm); contradiction.
Qed.

Lemma classify_mentions i o n e :
  classify o n = Some e -> identity o = identity n ->
  mentions i e = true -> i = identity n.
Proof.
  unfold classify, mentions. intros Hc Hid.
  destruct (negb (String.eqb (content_hash o) (content_hash n)));
    [|destruct (negb (String.eqb (path o) (path n)))];
    inversion Hc; subst e; cbn;
    rewrite ?orb_false_r, ?orb_true_iff, ?bool_decide_eq_true;
    intuition congruence.
Qed.

Lemma classify_occurrences i o n :
  occurrences i (option_list (classify o n)) <= 1.
Proof.
  unfold occurrences.
  destruct (classify o n) as [e|]; cbn; [|lia].
  destruct (mentions i e); cbn; lia.
Qed.

Lemma index_remove_subset i index o :
  o ∈ index_remove i index -> o ∈ index.
Proof. intros H. now apply index_remove_elem in H as [H _]. Qed.

Lemma deleted_occurrences i remaining :
  NoDup (identities remaining) ->
  occurrences i (map deleted_entry remaining) <= 1.
Proof.
  induction remaining as [|o remaining IH]; cbn; intros Hnd.
  - unfold occurrences. cbn. lia.
  - apply NoDup_cons in Hnd as [Ho Hnd]. rewrite occurrences_cons.
    destruct (mentions i (deleted_entry o)) eqn:Hm; [|now apply IH].
    unfold mentions in Hm. cbn in Hm. rewrite orb_false_r in Hm.
    apply bool_decide_eq_true in Hm. subst i.
    change (map deleted_entry remaining) with (reconcile remaining []).
    rewrite absent_silent; [lia | assumption | apply not_elem_of_nil].
Qed.

(** With unique identities on both sides and no capture on the way, every
    identity occurs in at most one entry. *)
Lemma reconcile_at_most_once i new_files : forall remaining,
  NoDup (identities remaining) -> NoDup (identities new_files) ->
  captures remaining new_files = false ->
  occurrences i (reconcile remaining new_files) <= 1.
Proof.
  induction new_files as [|n rest IH]; intros remaining Hr Hn Hsafe.
  - now apply deleted_occurrences.
  - cbn [reconcile]. cbn [captures] in Hsafe.
    cbn in Hn. apply NoDup_cons in Hn as [Hn Hrest].
    destruct (index_lookup (identity n) remaining) as [o|] eqn:Hl.
    + apply index_lookup_Some in Hl as [Ho Hid].
      rewrite occurrences_app.
      destruct (decide (i = identity n)) as [->|Hne].
      * rewrite absent_silent; [|rewrite identities_remove; tauto|assumption].
        pose proof (classify_occurrences (identity n) o n). lia.
      * rewrite occurrences_none.
        -- apply IH; [now apply index_remove_NoDup | assumption ..].
        -- intros e He. destruct (classify o n) as [e'|] eqn:Hc; cbn in He.
           ++ apply list_elem_of_singleton in He as ->.
              destruct (mentions i e') eqn:Hm; [|reflexivity].
              now apply (classify_mentions i o n e' Hc Hid) in Hm.
           ++ now apply not_elem_of_nil in He.
    + apply index_lookup_None in Hl.
      destruct (secondary_match n remaining) as [o|] eqn:Hs.
      * apply orb_false_iff in Hsafe as [Hfree Hsafe].
        apply bool_decide_eq_false in Hfree.
        rewrite occurrences_cons.
        destruct (mentions i (moved_entry o n)) eqn:Hm.
        -- unfold mentions in Hm. cbn in Hm.
           rewrite orb_true_iff, !bool_decide_eq_true in Hm.
           rewrite absent_silent; [lia | |].
           ++ rewrite identities_remove. destruct Hm as [<-|<-]; tauto.
           ++ destruct Hm as [<-|<-]; assumption.
        -- cbn. apply IH; [now apply index_remove_NoDup | assumption ..].
      * rewrite occurrences_cons.
        destruct (mentions i (new_entry n)) eqn:Hm.
        -- unfold mentions in Hm. cbn in Hm. rewrite orb_false_r in Hm.
           apply bool_decide_eq_true in Hm. subst i.
           rewrite absent_silent; [lia | assumption ..].
        -- cbn. now apply IH.
Qed.

(** Under the same conditions a file whose identity, content hash and path
    are the same on both sides occurs in no entry. *)
Lemma reconcile_unchanged_silent o n new_files : forall remaining,
  NoDup (identities remaining) -> NoDup (identities new_files) ->
  captures remaining new_files = false ->
  o ∈ remaining -> n ∈ new_files ->
  identity o = identity n -> content_hash o = content_hash n ->
  path o = path n ->
  occurrences (identity o) (reconcile remaining new_files) = 0.
Proof.
  induction new_files as [|n0 rest IH];
    intros remaining Hr Hn Hsafe Ho Hin Hid Hh Hp.
  - now apply not_elem_of_nil in Hin.
  - cbn [reconcile]. cbn [captures] in Hsafe.
    cbn in Hn. apply NoDup_cons in Hn as [Hn0 Hrest].
    destruct (decide (identity n0 = identity o)) as [Heq|Hne].
    + assert (n0 = n) as ->.
      { apply elem_of_cons in Hin as [->|Hin]; [reflexivity|].
        exfalso. apply Hn0. rewrite Heq, Hid. now apply identity_elem. }
      rewrite <- Hid, (index_lookup_elem _ _ Hr Ho).
      unfold classify.
      rewrite (proj2 (String.eqb_eq _ _) Hh), (proj2 (String.eqb_eq _ _) Hp).
      cbn. apply absent_silent; [|now rewrite Hid].
      rewrite identities_remove. tauto.
    + assert (Hin' : n ∈ rest).
      { apply elem_of_cons in Hin as [->|Hin]; [congruence | assumption]. }
      destruct (index_lookup (identity n0) remaining) as [o0|] eqn:Hl.
      * apply index_lookup_Some in Hl as [Ho0 Hid0].
        rewrite occurrences_app, occurrences_none.
        -- apply IH; try assumption; [now apply index_remove_NoDup|].
           apply index_remove_elem. split; [assumption | congruence].
        -- intros e He. destruct (classify o0 n0) as [e'|] eqn:Hc; cbn in He.
           ++ apply list_elem_of_singleton in He as ->.
              destruct (mentions (identity o) e') eqn:Hm; [|reflexivity].
              apply (classify_mentions _ o0 n0 e' Hc Hid0) in Hm. congruence.
           ++ now apply not_elem_of_nil in He.
      * destruct (secondary_match n0 remaining) as [o0|] eqn:Hs.
        -- apply orb_false_iff in Hsafe as [Hfree Hsafe].
           apply bool_decide_eq_false in Hfree.
           assert (Hoo : identity o <> identity o0).
           { intros Heq. apply Hfree. rewrite <- Heq, Hid.
             now apply identity_elem. }
           rewrite occurrences_cons.
           assert (Hm : mentions (identity o) (moved_entry o0 n0) = false).
           { unfold mentions. cbn.
             rewrite !bool_decide_eq_false_2 by congruence. reflexivity. }
           rewrite Hm. cbn.
           apply IH; try assumption; [now apply index_remove_NoDup|].
           apply index_remove_elem. split; assumption.
        -- rewrite occurrences_cons.
           assert (Hm : mentions (identity o) (new_entry n0) = false).
           { unfold mentions. cbn.
             rewrite bool_decide_eq_false_2 by congruence. reflexivity. }
           rewrite Hm. cbn. now apply IH.
Qed.

(** A new file whose identity is not in the old index is reported, as
    an endpoint of a Moved entry or as New. *)
Lemma reconcile_reports_unindexed n new_files : forall remaining,
  n ∈ new_files -> identity n ∉ identities remaining ->
  1 <= occurrences (identity n) (reconcile remaining new_files).
Proof.
  induction new_files as [|n0 rest IH]; intros remaining Hin Hnr.
  - now apply not_elem_of_nil in Hin.
  - cbn [reconcile].
    destruct (index_lookup (identity n0) remaining) as [o|] eqn:Hl.
    + apply index_lookup_Some in Hl as [Ho Hid].
      assert (Hne : identity n0 <> identity n).
      { intros Heq. apply Hnr. rewrite <- Heq, <- Hid.
        now apply identity_elem. }
      apply elem_of_cons in Hin as [->|Hin]; [congruence|].
      rewrite occurrences_app.
      assert (1 <= occurrences (identity n)
                     (reconcile (index_remove (identity n0) remaining) rest)).
      { apply IH; [assumption|]. rewrite identities_remove. tauto. }
      lia.
    + destruct (secondary_match n0 remaining) as [o|] eqn:Hs;
        rewrite occurrences_cons;
        (destruct (decide (identity n0 = identity n)) as [Heq|Hne];
         [ unfold mentions at 1; cbn;
           rewrite (bool_decide_eq_true_2 _ Heq), ?orb_true_r; cbn; lia
         | apply elem_of_cons in Hin as [->|Hin]; [congruence|] ]).
      * assert (1 <= occurrences (identity n)
                       (reconcile (index_remove (identity o) remaining) rest)).
        { apply IH; [assumption|]. rewrite identities_remove. tauto. }
        lia.
      * specialize (IH remaining Hin Hnr). lia.
Qed.

(** A capture shows in the entries: the identity of the captured old file
    occurs in the Moved entry and again where the new file that carries
    it is reported. *)
Lemma capture_reported_twice new_files : forall remaining,
  captures remaining new_files = true ->
  exists i, 2 <= occurrences i (reconcile remaining new_files).
Proof.
  induction new_files as [|n rest IH]; intros remaining Hc;
    [discriminate|].
  cbn [reconcile]. cbn [captures] in Hc.
  destruct (index_lookup (identity n) remaining) as [o|] eqn:Hl.
  - destruct (IH _ Hc) as [i Hi]. exists i. rewrite occurrences_app. lia.
  - destruct (secondary_match n remaining) as [o|] eqn:Hs.
    + apply orb_true_iff in Hc as [Hc|Hc].
      * apply bool_decide_eq_true in Hc.
        apply list_elem_of_fmap in Hc as (n' & Hid & Hn').
        exists (identity o). rewrite occurrences_cons.
        assert (Hm : mentions (identity o) (moved_entry o n) = true).
        { unfold mentions. cbn.
          now rewrite bool_decide_eq_true_2 by reflexivity. }
        rewrite Hm.
        assert (1 <= occurrences (identity o)
                       (reconcile (index_remove (identity o) remaining) rest)).
        { rewrite Hid at 1.
          apply reconcile_reports_unindexed; [assumption|].
          rewrite identities_remove. intros [_ Hne]. congruence. }
        lia.
      * destruct (IH _ Hc) as [i Hi]. exists i.
        rewrite occurrences_cons. lia.
    + destruct (IH _ Hc) as [i Hi]. exists i. rewrite occurrences_cons. lia.
Qed.

Lemma index_after_NoDup processed : forall remaining,
  NoDup (identities remaining) ->
  NoDup (identities (index_after remaining processed)).
Proof.
  induction processed as [|n rest IH]; intros remaining Hr; cbn;
    [assumption|].
  destruct (index_lookup (identity n) remaining);
    [|destruct (secondary_match n remaining)];
    auto using index_remove_NoDup.
Qed.

(** The entries for the new files that follow a processed prefix are
    entries of the whole run. *)
Lemma reconcile_suffix e processed rest : forall remaining,
  e ∈ reconcile (index_after remaining processed) rest ->
  e ∈ reconcile remaining (processed ++ rest).
Proof.
  induction processed as [|n processed IH]; intros remaining He;
    [exact He|].
  cbn [app reconcile]. cbn [index_after] in He.
  destruct (index_lookup (identity n) remaining).
  - apply elem_of_app. right. now apply IH.
  - destruct (secondary_match n remaining); right; now apply IH.
Qed.

(** A new file that finds its old record in the index with another hash
    yields the Modified entry, whatever the paths are. *)
Lemma reconcile_modified o n rest remaining :
  NoDup (identities remaining) -> o ∈ remaining ->
  identity o = identity n -> content_hash o <> content_hash n ->
  modified_entry o n ∈ reconcile remaining (n :: rest).
Proof.
  intros Hr Ho Hid Hh. cbn [reconcile].
  rewrite <- Hid, (index_lookup_elem _ _ Hr Ho).
  apply elem_of_app. left. unfold classify.
  rewrite (proj2 (String.eqb_neq _ _) Hh). cbn. left.
Qed.

(** A Moved entry whose two endpoints carry the same identity stems from
    the primary match: the hashes agree and the paths differ. *)
Lemma moved_same_identity e old_files new_files l :
  entry_of old_files new_files e -> kind e = Moved ->
  linked_file e = Some l -> identity (base_file e) = identity l ->
  content_hash (base_file e) = content_hash l
  /\ path (base_file e) <> path l.
Proof.
  intros [n Hn|o n Ho Hn Hid Hh|o n Ho Hn Hid Hh Hp|o n Ho Hn Hid Hs|o Ho];
    cbn; try discriminate; intros _ [= <-] Heq.
  - split; assumption.
  - contradiction.
Qed.

Lemma reconcile_same fs :
  NoDup (identities fs) -> reconcile fs fs = [].
Proof.
  induction fs as [|f fs IH]; [reflexivity|].
  cbn. intros Hnd. apply NoDup_cons in Hnd as [Hf Hnd].
  rewrite bool_decide_eq_true_2 by reflexivity.
  unfold classify. rewrite !String.eqb_refl. cbn.
  rewrite index_remove_absent by assumption. now apply IH.
Qed.

Lemma stored_files_own (s : PersistedState) c :
  NoDup (map id s) -> c ∈ s -> stored_files s (id c) = files c.
Proof.
  induction s as [|c0 s IH]; cbn; intros Hnd Hin.
  - now apply not_elem_of_nil in Hin.
  - apply NoDup_cons in Hnd as [Hc0 Hnd]. case_bool_decide as Hid.
    + apply elem_of_cons in Hin as [->|Hin]; [reflexivity|].
      exfalso. apply Hc0. rewrite Hid. now apply list_elem_of_fmap_2.
    + apply elem_of_cons in Hin as [->|Hin]; [congruence | now apply IH].
Qed.

Lemma diff_same (s : PersistedState) : wf_state s -> forall new,
  (forall c, c ∈ new -> c ∈ s) ->
  diff s new = inr (map (fun c => (c, [])) new).
Proof.
  intros [Hids Hfiles] new.
  induction new as [|c new IH]; intros Hsub; [reflexivity|].
  cbn. unfold diff_course.
  assert (Hc : NoDup (identities (files c))).
  { rewrite Forall_forall in Hfiles. apply Hfiles, Hsub. left. }
  rewrite (proj2 (first_duplicate_None _) Hc).
  rewrite (stored_files_own s c Hids) by (apply Hsub; left).
  rewrite (reconcile_same _ Hc).
  rewrite IH by (intros c' Hc'; apply Hsub; now right). reflexivity.
Qed.

Lemma first_duplicate_Some fs i :
  first_duplicate fs = Some i -> 2 <= length (paths_of i fs).
Proof.
  unfold paths_of. rewrite length_map.
  induction fs as [|f fs IH]; cbn; [discriminate|].
  case_bool_decide as Hin.
  - intros [= <-]. rewrite bool_decide_eq_true_2 by reflexivity. cbn.
    apply list_elem_of_fmap in Hin as (g & Hg & Hin).
    apply list_elem_of_In in Hin.
    assert (Hg' : In g (List.filter
                     (fun f0 => bool_decide (identity f0 = identity f)) fs)).
    { apply List.filter_In. split; [assumption|].
      now apply bool_decide_eq_true. }
    destruct (List.filter _ fs); [destruct Hg' | cbn; lia].
  - intros Hd. specialize (IH Hd).
    destruct (bool_decide (identity f = i)); cbn; lia.
Qed.

(** A course with a repeated identity makes the whole [diff] fail, whatever
    the old state and the other courses are. *)
Lemma diff_duplicate old new c :
  c ∈ new -> ~ NoDup (identities (files c)) ->
  exists c' i,
    c' ∈ new
    /\ diff old new =
         inl (DiffInconsistencyError (id c') i (paths_of i (files c')))
    /\ 2 <= length (paths_of i (files c')).
Proof.
  induction new as [|c0 rest IH]; intros Hin Hdup.
  - now apply not_elem_of_nil in Hin.
  - cbn. unfold diff_course.
    destruct (first_duplicate (files c0)) as [i|] eqn:Hd.
    + exists c0, i. split; [left|]. split; [reflexivity|].
      now apply first_duplicate_Some.
    + apply first_duplicate_None in Hd.
      apply elem_of_cons in Hin as [->|Hin]; [contradiction|].
      destruct (IH Hin Hdup) as (c' & i & Hc' & -> & Hlen).
      exists c', i. split; [now right|]. split; [reflexivity | assumption].
Qed.

(** The engine of section 4.1 reports no identity twice in a course
    exactly when no secondary match captures an old file whose identity a
    later new file carries. *)
Lemma at_most_once_iff_capture_free old new cs c es :
  wf_state old -> diff old new = inr cs -> (c, es) ∈ cs ->
  (forall i, occurrences i es <= 1)
  <-> captures (stored_files old (id c)) (files c) = false.
Proof.
  intros Hwf Hdiff Hcs.
  destruct (diff_inr_inv _ _ _ Hdiff _ _ Hcs) as (_ & Hnd & ->).
  pose proof (stored_files_NoDup old (id c) Hwf) as Hold.
  split.
  - intros Honce.
    destruct (captures (stored_files old (id c)) (files c)) eqn:Hc;
      [|reflexivity].
    destruct (capture_reported_twice _ _ Hc) as [i Hi].
    specialize (Honce i). lia.
  - intros Hc i. now apply reconcile_at_most_once.
Qed.

(** Without a capture, a file whose identity, content hash and path are
    unchanged occurs in no entry of its course. *)
Lemma unchanged_silent_without_capture old new cs c es o n :
  wf_state old -> diff old new = inr cs -> (c, es) ∈ cs ->
  captures (stored_files old (id c)) (files c) = false ->
  o ∈ stored_files old (id c) -> n ∈ files c ->
  identity o = identity n -> content_hash o = content_hash n ->
  path o = path n ->
  occurrences (identity o) es = 0.
Proof.
  intros Hwf Hdiff Hcs Hc Ho Hn Hid Hh Hp.
  destruct (diff_inr_inv _ _ _ Hdiff _ _ Hcs) as (_ & Hnd & ->).
  pose proof (stored_files_NoDup old (id c) Hwf) as Hold.
  now apply (reconcile_unchanged_silent o n).
Qed.

(** A new file whose old record is still in the index when its turn
    comes, and whose hash differs from the record's, is reported as
    Modified, with the old path and the new hash, whether or not the path
    differs too. *)
Lemma modified_when_indexed old new cs c es o n before after :
  wf_state old -> diff old new = inr cs -> (c, es) ∈ cs ->
  files c = before ++ n :: after ->
  o ∈ index_after (stored_files old (id c)) before ->
  identity o = identity n -> content_hash o <> content_hash n ->
  modified_entry o n ∈ es
  /\ kind (modified_entry o n) = Modified
  /\ path (base_file (modified_entry o n)) = path o
  /\ content_hash (base_file (modified_entry o n)) = content_hash n.
Proof.
  intros Hwf Hdiff Hcs Hfiles Ho Hid Hh.
  destruct (diff_inr_inv _ _ _ Hdiff _ _ Hcs) as (_ & _ & ->).
  pose proof (stored_files_NoDup old (id c) Hwf) as Hold.
  split; [|repeat split].
  rewrite Hfiles. apply reconcile_suffix.
  apply reconcile_modified; try assumption.
  now apply index_after_NoDup.
Qed.

(** In every course a Moved entry for two files of the same identity
    stems from equal hashes and differing paths. *)
Lemma moved_only_when_hash_is_equal old new cs c es e l :
  diff old new = inr cs -> (c, es) ∈ cs ->
  e ∈ es -> kind e = Moved -> linked_file e = Some l ->
  identity (base_file e) = identity l ->
  content_hash (base_file e) = content_hash l
  /\ path (base_file e) <> path l.
Proof.
  intros Hdiff Hcs He.
  destruct (diff_inr_inv _ _ _ Hdiff _ _ Hcs) as (_ & _ & ->).
  apply reconcile_origin in He.
  now apply (moved_same_identity e _ _ l He).
Qed.

(** C8: diffing a persisted state that keeps its invariant against the
    snapshot equivalent to it succeeds with a change-set that lists the
    courses of the state and holds no entry at all. *)
Theorem diff_of_unchanged_state_is_empty (s : PersistedState) :
  wf_state s ->
  exists cs,
    diff s (snapshot_of s) = inr cs
    /\ change_entries cs = []
    /\ map fst cs = s.
Proof.
  intros Hwf. exists (map (fun c => (c, [])) s).
  split; [apply (diff_same s Hwf); auto|].
  split; induction s as [|c s IH]; cbn; try reflexivity.
  - destruct Hwf as [Hids Hfiles].
    apply NoDup_cons in Hids as [_ Hids].
    apply Forall_cons in Hfiles as [_ Hfiles]. now apply IH.
  - destruct Hwf as [Hids Hfiles].
    apply NoDup_cons in Hids as [_ Hids].
    apply Forall_cons in Hfiles as [_ Hfiles]. f_equal. now apply IH.
Qed.

End ReconciliationProperties.

(** ** The persisted state store *)

Section StateStoreProperties.
Import Reconciliation StateStore.

Lemma load_store_location m m' :
  store_location m = store_location m' -> load m = load m'.
Proof. unfold load. now intros ->. Qed.

Lemma exec_keeps_store m s :
  s <> Replace -> store_location (exec m s) = store_location m.
Proof. destruct s; cbn; congruence. Qed.

Lemma fold_exec_keeps_store steps : forall m,
  Forall (fun s => s <> Replace) steps ->
  store_location (fold_left exec steps m) = store_location m.
Proof.
  induction steps as [|s steps IH]; intros m Hsteps; [reflexivity|].
  apply Forall_cons in Hsteps as [Hs Hsteps]. cbn.
  rewrite IH by assumption. now apply exec_keeps_store.
Qed.

Lemma fold_write_records records : forall m img,
  temporary_location m = Some img ->
  fold_left exec (map WriteRecord records) m =
    {| store_location := store_location m;
       temporary_location :=
         Some {| written := written img ++ records;
                 complete := complete img |} |}.
Proof.
  induction records as [|c records IH]; intros m img Htmp; cbn.
  - rewrite app_nil_r. destruct m as [st tmp], img. cbn in *. congruence.
  - rewrite (IH _ {| written := written img ++ [c];
                       complete := complete img |}).
    + cbn. now rewrite <- app_assoc.
    + unfold on_temporary. cbn. rewrite Htmp. reflexivity.
Qed.

Lemma commit_spec new_state m :
  commit new_state m =
    {| store_location := Some {| written := new_state; complete := true |};
       temporary_location := None |}.
Proof.
  unfold commit, commit_steps. cbn. rewrite fold_left_app.
  erewrite fold_write_records by reflexivity. reflexivity.
Qed.

Lemma steps_before_replace k new_state :
  k < length (commit_steps new_state) ->
  Forall (fun s => s <> Replace) (take k (commit_steps new_state)).
Proof.
  intros Hk.
  assert (Hsplit : commit_steps new_state =
            (CreateTemporary :: map WriteRecord new_state ++ [FinishTemporary])
            ++ [Replace]).
  { unfold commit_steps. cbn. now rewrite <- app_assoc. }
  rewrite Hsplit in Hk |- *. rewrite length_app in Hk. cbn [length] in Hk.
  rewrite take_app_le by (cbn [length]; lia). apply Forall_take.
  constructor; [discriminate|]. apply Forall_app. split.
  - apply Forall_fmap, Forall_forall. intros c _. discriminate.
  - constructor; [discriminate | constructor].
Qed.

(** C4: a crash after any number of the writes of [commit] short of all of
    them, the replace being the last, leaves a medium from which [load]
    returns what it returned before the commit began; once the replace is
    done, [load] returns the new state. *)
Theorem commit_is_atomic k new_state m :
  k < length (commit_steps new_state) ->
  load (crash_after k new_state m) = load m
  /\ load (commit new_state m) = inr new_state
  /\ crash_after (length (commit_steps new_state)) new_state m
     = commit new_state m.
Proof.
  intros Hk. split; [|split].
  - apply load_store_location. unfold crash_after.
    apply fold_exec_keeps_store. now apply steps_before_replace.
  - now rewrite commit_spec.
  - unfold crash_after, commit. now rewrite firstn_all.
Qed.

(** C5: when one course of the new snapshot holds two files with the same
    identity, [diff] fails with a [DiffInconsistencyError] that names a
    course, a repeated identity and its competing paths; it returns no
    change-set, so that no file is classified; and the run ends with the
    error and without touching the store. *)
Theorem duplicate_identity_fails old new c m :
  c ∈ new -> ~ NoDup (identities (files c)) ->
  (exists c' i,
     c' ∈ new
     /\ diff old new =
          inl (DiffInconsistencyError (id c') i (paths_of i (files c')))
     /\ 2 <= length (paths_of i (files c')))
  /\ (forall cs, diff old new <> inr cs)
  /\ fst (run m new) = m
  /\ (exists e, snd (run m new) = inl e).
Proof.
  intros Hin Hdup. split; [now apply (diff_duplicate old new c)|].
  split.
  - destruct (diff_duplicate old new c Hin Hdup) as (c' & i & _ & -> & _).
    discriminate.
  - unfold run. destruct (load m) as [e|old']; cbn; [eauto|].
    destruct (diff_duplicate old' new c Hin Hdup) as (c' & i & _ & -> & _).
    cbn. eauto.
Qed.

End StateStoreProperties.

(** ** The engine and the store on the examples *)

Section Examples.
Import Reconciliation StateStore.

Lemma example_old_wf : wf_state example_old.
Proof.
  split.
  - apply NoDup_singleton.
  - repeat constructor. apply not_elem_of_nil.
Qed.

(** The concrete scenarios 1 to 3 of section 8. *)
Example scenario_moved :
  diff [example_course [example_file 1 "A" "a.pdf"]]
       [example_course [example_file 1 "A" "b.pdf"]]
  = inr [(example_course [example_file 1 "A" "b.pdf"],
          [moved_entry (example_file 1 "A" "a.pdf")
                       (example_file 1 "A" "b.pdf")])].
Proof. reflexivity. Qed.

Example scenario_new :
  diff [] [example_course [example_file 2 "B" "c.pdf"]]
  = inr [(example_course [example_file 2 "B" "c.pdf"],
          [new_entry (example_file 2 "B" "c.pdf")])].
Proof. reflexivity. Qed.

Example scenario_deleted :
  diff [example_course [example_file 3 "X" "d.pdf"]] [example_course []]
  = inr [(example_course [], [deleted_entry (example_file 3 "X" "d.pdf")])].
Proof. reflexivity. Qed.

(** The console on a renamed file. *)
Example console_prints_both_paths :
  ConsoleService.notify_about_changes_in_moodle
    [ {| Objects.id := 7; Objects.fullname := "Logic";
         Objects.files :=
           map Report.as_file (example_entries example_renamed) |} ]
  = [ ConsoleService.Print ConsoleService.NEWLINE;
      ConsoleService.LoggingInfo
        "2 changes found for the configured Moodle-Account.";
      ConsoleService.LogSuccess
        "2 changes found for the configured Moodle-Account.";
      ConsoleService.Print
        (ConsoleService.chr 27 +:+ "[1;34mLogic" +:+ ConsoleService.chr 27
         +:+ "[0m");
      ConsoleService.Print
        (ConsoleService.chr 27 +:+ "[1;36m<->" +:+ ConsoleService.TAB
         +:+ "notes.pdf" +:+ ConsoleService.chr 27 +:+ "[0m"
         +:+ ConsoleService.chr 27 +:+ "[1;32m ==> lecture/notes.pdf"
         +:+ ConsoleService.chr 27 +:+ "[0m");
      ConsoleService.Print
        (ConsoleService.chr 27 +:+ "[1;32m+" +:+ ConsoleService.TAB
         +:+ "new.pdf" +:+ ConsoleService.chr 27 +:+ "[0m");
      ConsoleService.Print ConsoleService.NEWLINE ].
Proof. vm_compute. reflexivity. Qed.



(** Both inputs have a capture, and the examples of a rename and of an
    edit have none. *)
Lemma example_captures :
  captures [example_stored] (files (example_reissued "A")) = true
  /\ captures [example_stored] (files (example_reissued "B")) = true
  /\ captures [example_stored] (files example_renamed) = false
  /\ captures [example_stored] (files example_edited) = false.
Proof. repeat split; vm_compute; reflexivity. Qed.

(** The edited and renamed file of the example is reported as Modified,
    with the old path. *)
Lemma example_edited_is_modified :
  diff example_old [example_edited]
  = inr [(example_edited,
          [modified_entry example_stored
             (example_file 1 "B" "lecture/notes.pdf")])]
  /\ path (base_file (modified_entry example_stored
                        (example_file 1 "B" "lecture/notes.pdf")))
     = "notes.pdf".
Proof. split; vm_compute; reflexivity. Qed.

Lemma moved_entry_has_both_endpoints_witness :
  diff example_old [example_renamed]
  = inr [(example_renamed, example_entries example_renamed)]
  /\ moved_entry example_stored (example_file 1 "A" "lecture/notes.pdf")
     ∈ example_entries example_renamed
  /\ exists o n,
       o = example_stored
       /\ Some (example_file 1 "A" "lecture/notes.pdf") = Some n
       /\ o ∈ stored_files example_old (id example_renamed)
       /\ n ∈ files example_renamed
       /\ ConsoleService.report_file
            (Report.as_file
               (moved_entry example_stored
                  (example_file 1 "A" "lecture/notes.pdf")))
          = ConsoleService.Print
              (ConsoleService.COLOR_SEQ ConsoleService.CYAN +:+ "<->"
               +:+ ConsoleService.TAB
               +:+ (path o +:+ ConsoleService.RESET_SEQ
                    +:+ ConsoleService.COLOR_SEQ ConsoleService.GREEN
                    +:+ " ==> " +:+ path n +:+ ConsoleService.RESET_SEQ)).
Proof.
  assert (Hdiff : diff example_old [example_renamed]
            = inr [(example_renamed, example_entries example_renamed)])
    by reflexivity.
  assert (Hin : moved_entry example_stored
                  (example_file 1 "A" "lecture/notes.pdf")
                ∈ example_entries example_renamed) by left.
  split; [exact Hdiff|]. split; [exact Hin|].
  destruct (moved_entry_has_both_endpoints example_old [example_renamed] _
              example_renamed _ _ Hdiff (list_elem_of_here _ _) Hin eq_refl)
    as (o & n & Ho & Hn & Hold & Hnew & Hprint).
  exists o, n. repeat split; try assumption. now symmetry.
Defined.

Lemma diff_of_unchanged_state_is_empty_witness :
  wf_state example_old
  /\ exists cs,
       diff example_old (snapshot_of example_old) = inr cs
       /\ change_entries cs = []
       /\ map fst cs = example_old.
Proof.
  split; [exact example_old_wf|].
  exact (diff_of_unchanged_state_is_empty example_old example_old_wf).
Defined.

Lemma commit_is_atomic_witness :
  2 < length (commit_steps [example_renamed])
  /\ load (crash_after 2 [example_renamed] example_medium)
     = load example_medium
  /\ load (commit [example_renamed] example_medium) = inr [example_renamed]
  /\ crash_after (length (commit_steps [example_renamed])) [example_renamed]
       example_medium
     = commit [example_renamed] example_medium.
Proof.
  assert (Hk : 2 < length (commit_steps [example_renamed])) by (cbn; lia).
  split; [exact Hk|].
  exact (commit_is_atomic 2 [example_renamed] example_medium Hk).
Defined.

Lemma duplicate_identity_fails_witness :
  example_duplicated ∈ [example_duplicated]
  /\ ~ NoDup (identities (files example_duplicated))
  /\ (exists c' i,
        c' ∈ [example_duplicated]
        /\ diff example_old [example_duplicated]
           = inl (DiffInconsistencyError (id c') i (paths_of i (files c')))
        /\ 2 <= length (paths_of i (files c')))
  /\ (forall cs, diff example_old [example_duplicated] <> inr cs)
  /\ fst (run example_medium [example_duplicated]) = example_medium
  /\ (exists e, snd (run example_medium [example_duplicated]) = inl e).
Proof.
  assert (Hin : example_duplicated ∈ [example_duplicated]) by left.
  assert (Hdup : ~ NoDup (identities (files example_duplicated))).
  { intros Hnd. apply NoDup_cons in Hnd as [Hnd _]. apply Hnd. left. }
  split; [exact Hin|]. split; [exact Hdup|].
  exact (duplicate_identity_fails example_old [example_duplicated]
           example_duplicated example_medium Hin Hdup).
Defined.

End Examples.

(** ** ConfigHelper: writing, removing and loading *)

Section ConfigHelperStore.
Import Py ConfigHelper.

Variable json_dumps : gmap string value -> string.
Variable json_loads : string -> exn + option (gmap string value).
Variable config_file_in : string -> string.

Lemma remove_property_spec key st :
  remove_property json_dumps key st = (inr tt, removed json_dumps key st).
Proof. reflexivity. Qed.

(** X1: what [set_property] stores under a key is what [get_property]
    returns for it afterwards; the answer for every other key is as
    before; and of two writes to one key the later one wins. *)
Theorem set_property_then_get key v st :
  get_property key (world (set_property json_dumps key v) st)
    = (inr v, stored json_dumps key v st)
  /\ (forall key', key' <> key ->
        fst (get_property key' (world (set_property json_dumps key v) st))
        = fst (get_property key' st))
  /\ (forall v0,
        _whole_config
          (world (set_property json_dumps key v)
             (world (set_property json_dumps key v0) st))
        = _whole_config (world (set_property json_dumps key v) st)).
Proof.
  unfold world. rewrite !set_property_spec. cbn [snd]. split; [|split].
  - apply get_property_present. cbn. apply lookup_insert_eq.
  - intros key' Hne. unfold get_property, try_except, getitem. cbn.
    rewrite lookup_insert_ne by congruence.
    now destruct (_whole_config st !! key').
  - intros v0. rewrite set_property_spec. cbn. apply insert_insert_eq.
Qed.

(** X2: after [remove_property] the key is not configured, so that
    [get_property] raises its [ValueError]; the answer for every other
    key is as before; removing a key that is not configured raises
    nothing and leaves the dictionary as it was, but still rewrites the
    configuration file. *)
Theorem remove_property_then_get key st :
  get_property key (world (remove_property json_dumps key) st)
    = (inl (ValueError
              ("The " +:+ key +:+ "-Property is not yet configured!")),
       removed json_dumps key st)
  /\ (forall key', key' <> key ->
        fst (get_property key' (world (remove_property json_dumps key) st))
        = fst (get_property key' st))
  /\ (_whole_config st !! key = None ->
        remove_property json_dumps key st
        = (inr tt,
           with_fs (<[config_path st := json_dumps (_whole_config st)]>
                      (fs st)) st)).
Proof.
  unfold world. rewrite !remove_property_spec. cbn [snd]. split; [|split].
  - apply get_property_absent. cbn. apply lookup_delete_eq.
  - intros key' Hne. unfold get_property, try_except, getitem. cbn.
    rewrite lookup_delete_ne by congruence.
    now destruct (_whole_config st !! key').
  - intros Hk. unfold removed, with_fs. now rewrite delete_id.
Qed.

(** X3: every method that writes ([set_property], [remove_property],
    [set_default_filename_character_map]) leaves the configuration file
    with the text of the dictionary in memory; so does
    [get_filename_character_map] when it has to store the default map,
    and otherwise it keeps file and dictionary as they are. *)
Theorem writes_keep_file_in_sync st :
  (forall key v,
     in_sync json_dumps (world (set_property json_dumps key v) st))
  /\ (forall key,
        in_sync json_dumps (world (remove_property json_dumps key) st))
  /\ (forall b,
        in_sync json_dumps
          (world (set_default_filename_character_map json_dumps b) st))
  /\ (in_sync json_dumps st ->
        in_sync json_dumps
          (world (get_filename_character_map json_dumps) st))
  /\ (_whole_config st !! "filename_character_map" = None ->
        in_sync json_dumps
          (world (get_filename_character_map json_dumps) st)).
Proof.
  unfold in_sync, world.
  split; [|split; [|split; [|split]]].
  - intros key v. cbn. apply lookup_insert_eq.
  - intros key. cbn. apply lookup_insert_eq.
  - intros [|]; cbn; apply lookup_insert_eq.
  - intros Hsync. rewrite get_filename_character_map_spec.
    destruct (_whole_config st !! "filename_character_map");
      [assumption | cbn; apply lookup_insert_eq].
  - intros Hk. rewrite get_filename_character_map_spec, Hk.
    cbn. apply lookup_insert_eq.
Qed.

(** X4: [get_filename_character_map] writes at most once: a second call
    returns what the first one returned and leaves the helper and the
    file system as the first call left them. *)
Theorem get_filename_character_map_twice st :
  get_filename_character_map json_dumps
    (world (get_filename_character_map json_dumps) st)
  = (fst (get_filename_character_map json_dumps st),
     world (get_filename_character_map json_dumps) st).
Proof.
  unfold world. rewrite (get_filename_character_map_spec json_dumps st).
  destruct (_whole_config st !! "filename_character_map") as [v|] eqn:Hk;
    cbn [fst snd]; rewrite get_filename_character_map_spec.
  - now rewrite Hk.
  - cbn. now rewrite lookup_insert_eq.
Qed.

(** X5: [set_default_filename_character_map] replaces whatever map was
    configured: afterwards [get_filename_character_map] returns the
    Windows map for [True] and the map that only replaces the slash for
    [False], and writes nothing. *)
Theorem set_default_filename_character_map_then_get b st :
  get_filename_character_map json_dumps
    (world (set_default_filename_character_map json_dumps b) st)
  = (inr (if b then windows_map else linux_map),
     world (set_default_filename_character_map json_dumps b) st).
Proof.
  rewrite get_filename_character_map_spec.
  destruct b; unfold world; cbn; now rewrite lookup_insert_eq.
Qed.

Lemma dict_update_fresh key v d :
  key ∉ map fst d -> dict_update key v d = d ++ [(key, v)].
Proof.
  induction d as [|[k w] d IH]; cbn; [reflexivity|].
  rewrite not_elem_of_cons. intros [Hne Hd].
  rewrite (proj2 (String.eqb_neq k key)) by congruence.
  now rewrite IH.
Qed.

Lemma option_or_default_spec key dflt options st :
  option_or_default key dflt options st
  = (inr (dict_update key (default dflt (_whole_config st !! key)) options),
     st).
Proof.
  unfold option_or_default, try_except, bind.
  destruct (_whole_config st !! key) as [w|] eqn:Hk.
  - now rewrite (get_property_present _ _ _ Hk).
  - now rewrite (get_property_absent _ _ Hk).
Qed.

(** X6: [get_download_options] never raises and never writes; it returns
    a dictionary with the three keys [download_linked_files],
    [download_domains_whitelist] and [download_domains_blacklist], in
    this order, each with the configured value or, when the key is not
    configured, with [False], the empty list and the empty list. *)
Theorem get_download_options_spec st :
  get_download_options st
  = (inr (VDict
       [ ("download_linked_files",
          default (VBool false)
            (_whole_config st !! "download_linked_files"));
         ("download_domains_whitelist",
          default (VList [])
            (_whole_config st !! "download_domains_whitelist"));
         ("download_domains_blacklist",
          default (VList [])
            (_whole_config st !! "download_domains_blacklist")) ]), st).
Proof.
  unfold get_download_options, bind.
  rewrite !option_or_default_spec. reflexivity.
Qed.

(** X7: when its key is configured, every getter returns the stored
    value as it is, of whatever type, raises nothing and writes
    nothing. *)
Theorem getters_on_present_key st v :
  (_whole_config st !! "download_submissions" = Some v ->
     get_download_submissions st = (inr v, st))
  /\ (_whole_config st !! "download_descriptions" = Some v ->
        get_download_descriptions st = (inr v, st))
  /\ (_whole_config st !! "download_databases" = Some v ->
        get_download_databases st = (inr v, st))
  /\ (_whole_config st !! "download_linked_files" = Some v ->
        get_download_linked_files st = (inr v, st))
  /\ (_whole_config st !! "download_course_ids" = Some v ->
        get_download_course_ids st = (inr v, st))
  /\ (_whole_config st !! "dont_download_course_ids" = Some v ->
        get_dont_download_course_ids st = (inr v, st))
  /\ (_whole_config st !! "options_of_courses" = Some v ->
        get_options_of_courses st = (inr v, st))
  /\ (_whole_config st !! "token" = Some v -> get_token st = (inr v, st))
  /\ (_whole_config st !! "moodle_domain" = Some v ->
        get_moodle_domain st = (inr v, st))
  /\ (_whole_config st !! "moodle_path" = Some v ->
        get_moodle_path st = (inr v, st))
  /\ (_whole_config st !! "filename_character_map" = Some v ->
        get_filename_character_map json_dumps st = (inr v, st)).
Proof.
  unfold get_download_submissions, get_download_descriptions,
    get_download_databases, get_download_linked_files,
    get_download_course_ids, get_dont_download_course_ids,
    get_options_of_courses, get_token, get_moodle_domain, get_moodle_path.
  rewrite get_filename_character_map_spec.
  repeat split; intros Hk;
    rewrite ?default_getter, ?required_getter, Hk; reflexivity.
Qed.

(** X8: without a configuration file [is_present] answers [False] and
    [load] raises the [ValueError] ['No config found!'], leaving the
    helper as it was; a file whose text [json.loads] rejects makes [load]
    raise that exception, again without touching the helper. *)
Theorem load_without_usable_file st :
  (fs st !! config_path st = None ->
     is_present st = (inr false, st)
     /\ load json_loads st = Some (inl (ValueError "No config found!"), st))
  /\ (forall config_raw e,
        fs st !! config_path st = Some config_raw ->
        json_loads config_raw = inl e ->
        is_present st = (inr true, st)
        /\ load json_loads st = Some (inl e, st)).
Proof.
  unfold is_present, load. split.
  - intros ->. split; [|reflexivity].
    rewrite bool_decide_eq_false_2; [reflexivity|].
    intros [x Hx]. discriminate.
  - intros config_raw e -> ->. split; [|reflexivity].
    rewrite bool_decide_eq_true_2; [reflexivity | eauto].
Qed.

(** X9: the configuration survives a restart: when [json.loads] reads
    back what [json.dumps] wrote, a helper that is constructed for the
    same storage path after a [set_property] and then loaded holds
    exactly the dictionary that the writing helper held. *)
Theorem load_after_set_property storage_path key v st :
  config_path st = config_file_in storage_path ->
  json_loads (json_dumps (<[key := v]> (_whole_config st)))
    = inr (Some (<[key := v]> (_whole_config st))) ->
  is_present
    (__init__ config_file_in storage_path
       (fs (world (set_property json_dumps key v) st)))
  = (inr true,
     __init__ config_file_in storage_path
       (fs (world (set_property json_dumps key v) st)))
  /\ load json_loads
       (__init__ config_file_in storage_path
          (fs (world (set_property json_dumps key v) st)))
     = Some (inr tt, world (set_property json_dumps key v) st).
Proof.
  intros Hpath Hjson. unfold world, is_present, load, __init__.
  rewrite set_property_spec. cbn. rewrite <- Hpath, lookup_insert_eq.
  split.
  - rewrite bool_decide_eq_true_2; [reflexivity | eauto].
  - rewrite Hjson. reflexivity.
Qed.

End ConfigHelperStore.

(** ** MoodleService: the filter applied again, and the split of the URI *)

Section FilterComposition.
Import Objects MoodleService.

Variable _should_download_course : Z -> list Z -> list Z -> bool.
Variable download_course_ids : list Z.
Variable dont_download_course_ids : list Z.
Variable download_submissions : bool.
Variable download_descriptions : bool.
Variable download_databases : bool.

Lemma selected_after_filter changes (h : heap) l :
  l ∈ changes ->
  selected _should_download_course download_course_ids
    dont_download_course_ids download_submissions download_descriptions
    download_databases
    (filtered_heap download_submissions download_descriptions
       download_databases changes h) l
  = selected _should_download_course download_course_ids
      dont_download_course_ids download_submissions download_descriptions
      download_databases h l.
Proof.
  intros Hin. unfold selected. rewrite filtered_heap_lookup.
  destruct (h !! l) as [c|]; cbn; [|reflexivity].
  rewrite bool_decide_eq_true_2 by assumption. cbn.
  now rewrite enabled_idempotent.
Qed.

(** X10: filtering is idempotent: when the list that [_filter_courses]
    returned is filtered again with the same settings, the same list
    comes back and no course object changes any more. *)
Theorem filter_courses_twice changes (h h' : heap) out :
  (forall l, l ∈ changes -> is_Some (h !! l)) ->
  _filter_courses _should_download_course download_course_ids
    dont_download_course_ids download_submissions download_descriptions
    download_databases changes h = Some (h', out) ->
  _filter_courses _should_download_course download_course_ids
    dont_download_course_ids download_submissions download_descriptions
    download_databases out h' = Some (h', out).
Proof.
  intros Hvalid Hrun. rewrite filter_courses_spec in Hrun by assumption.
  injection Hrun as <- <-.
  assert (Hsub : forall l,
            l ∈ List.filter
                  (selected _should_download_course download_course_ids
                     dont_download_course_ids download_submissions
                     download_descriptions download_databases h) changes ->
            l ∈ changes).
  { intros l Hl. apply list_elem_of_In, List.filter_In in Hl as [Hl _].
    now apply list_elem_of_In. }
  rewrite filter_courses_spec.
  - f_equal. f_equal.
    + apply map_eq. intros l. rewrite !filtered_heap_lookup.
      destruct (h !! l) as [c|]; cbn; [|reflexivity]. f_equal.
      case_bool_decide as Hl; [|reflexivity].
      rewrite bool_decide_eq_true_2 by (now apply Hsub). cbn.
      now rewrite enabled_idempotent.
    + rewrite filter_twice. apply List.filter_ext_in. intros l Hl.
      apply list_elem_of_In in Hl.
      rewrite selected_after_filter by assumption.
      now destruct (selected _ _ _ _ _ _ h l).
  - intros l Hl. rewrite filtered_heap_lookup.
    apply fmap_is_Some, Hvalid, Hsub, Hl.
Qed.

Lemma endswith_append s suffix : endswith (s +:+ suffix) suffix = true.
Proof.
  induction s as [|a s IH].
  - destruct suffix as [|b suffix]; [reflexivity|].
    change (String.eqb (String b suffix) (String b suffix)
            || endswith suffix (String b suffix) = true).
    now rewrite String.eqb_refl.
  - change (String.eqb (String a (s +:+ suffix)) suffix
            || endswith (s +:+ suffix) suffix = true).
    rewrite IH. apply orb_true_r.
Qed.

(** X11: [_split_moodle_uri] returns the domain as it is and a path that
    always ends with a slash: a path that ends with one is returned
    unchanged, every other path, the empty one included, gets one
    appended.  The path is never empty after the first test, so the test
    for the empty path changes nothing; and splitting the result again
    gives the same result. *)
Theorem split_moodle_uri_path_ends_with_slash netloc path :
  fst (_split_moodle_uri netloc path) = netloc
  /\ snd (_split_moodle_uri netloc path)
     = (if endswith path "/" then path else path +:+ "/")
  /\ endswith (snd (_split_moodle_uri netloc path)) "/" = true
  /\ snd (_split_moodle_uri netloc path) <> EmptyString
  /\ _split_moodle_uri netloc (snd (_split_moodle_uri netloc path))
     = _split_moodle_uri netloc path.
Proof.
  assert (Hne : forall p, endswith p "/" = true -> String.eqb p EmptyString = false).
  { intros [|a p]; [discriminate | reflexivity]. }
  assert (Hsplit : forall p,
            _split_moodle_uri netloc p
            = (netloc, if endswith p "/" then p else p +:+ "/")).
  { intros p. unfold _split_moodle_uri.
    destruct (endswith p "/") eqn:He; cbn [negb].
    - now rewrite (Hne p He).
    - now rewrite (Hne (p +:+ "/") (endswith_append p "/")). }
  assert (Hend : endswith (if endswith path "/" then path else path +:+ "/")
                   "/" = true).
  { destruct (endswith path "/") eqn:He;
      [assumption | apply endswith_append]. }
  rewrite !Hsplit. cbn [fst snd].
  split; [reflexivity|]. split; [reflexivity|]. split; [exact Hend|].
  split.
  - intros Hempty. apply Hne in Hend. rewrite Hempty in Hend. discriminate.
  - now rewrite Hend.
Qed.

End FilterComposition.

(** ** ConsoleService: what the report contains *)

Section ConsoleProperties.
Import Objects ConsoleService.

Lemma count_changes_from changes : forall n,
  fold_left (fun diff_count course => diff_count + length (files course))
    changes n
  = n + sum_list (map (fun c => length (files c)) changes).
Proof.
  induction changes as [|c changes IH]; intros n; cbn; [lia|].
  rewrite IH. lia.
Qed.

Lemma count_changes_sum changes :
  count_changes changes = sum_list (map (fun c => length (files c)) changes).
Proof. unfold count_changes. now rewrite count_changes_from. Qed.

Lemma count_changes_filter changes :
  count_changes
    (List.filter (fun c => Nat.ltb 0 (length (files c))) changes)
  = count_changes changes.
Proof.
  rewrite !count_changes_sum.
  induction changes as [|c changes IH]; [reflexivity|].
  cbn [List.filter].
  destruct (Nat.ltb 0 (length (files c))) eqn:Hc;
    cbn [map sum_list_with]; rewrite IH; [reflexivity|].
  apply Nat.ltb_ge in Hc. unfold Datatypes.id. lia.
Qed.

Lemma report_course_length c :
  length (report_course c)
  = if Nat.ltb 0 (length (files c)) then 2 + length (files c) else 0.
Proof.
  unfold report_course. destruct (files c) as [|f fs]; cbn; [reflexivity|].
  rewrite bool_decide_eq_false_2 by discriminate. cbn [length].
  rewrite length_app, length_map. cbn. lia.
Qed.

(** X12: a course without files leaves no trace in the report: the
    output for a list of courses is the output for the courses of the
    list that have files; and when no course has a file, one empty line
    is all that is printed, without a word to the loggers. *)
Theorem report_skips_courses_without_files changes :
  notify_about_changes_in_moodle changes
  = notify_about_changes_in_moodle
      (List.filter (fun c => Nat.ltb 0 (length (files c))) changes)
  /\ (Forall (fun c => files c = []) changes ->
        notify_about_changes_in_moodle changes = [Print NEWLINE]).
Proof.
  split.
  - unfold notify_about_changes_in_moodle.
    rewrite count_changes_filter. do 2 f_equal.
    induction changes as [|c changes IH]; cbn; [reflexivity|].
    destruct (files c) as [|f fs] eqn:Hf; cbn.
    + unfold report_course at 1. rewrite Hf. cbn. exact IH.
    + now rewrite IH.
  - intros Hall. unfold notify_about_changes_in_moodle.
    assert (Hcount : count_changes changes = 0).
    { rewrite count_changes_sum.
      induction Hall as [|c changes Hc _ IH]; cbn; [reflexivity|].
      rewrite Hc. cbn. exact IH. }
    assert (Hbody : flat_map report_course changes = []).
    { clear Hcount.
      induction Hall as [|c changes Hc _ IH]; cbn; [reflexivity|].
      unfold report_course at 1. rewrite Hc. cbn. exact IH. }
    rewrite Hcount, Hbody. reflexivity.
Qed.

Lemma count_changes_file_lines changes :
  count_changes changes
  = length (flat_map (fun c => map report_file (files c)) changes).
Proof.
  rewrite count_changes_sum.
  induction changes as [|c changes IH]; [reflexivity|].
  cbn [map sum_list_with flat_map].
  rewrite length_app, length_map, IH. reflexivity.
Qed.

(** X13: the report, line by line.  It opens with one empty line; when
    there is a file line at all, the two loggers get the message that
    announces their number, and otherwise nothing; then every course with
    files, in the order given, has its name in blue, the lines of its
    files in their order and one empty line.  The number announced is the
    number of file lines of the report. *)
Theorem report_announces_the_file_lines changes :
  notify_about_changes_in_moodle changes
  = Print NEWLINE
    :: (if Nat.ltb 0
             (length (flat_map (fun c => map report_file (files c)) changes))
        then
          [LoggingInfo
             (pretty
                (length (flat_map (fun c => map report_file (files c))
                           changes))
              +:+ " changes found for the configured Moodle-Account.");
           LogSuccess
             (pretty
                (length (flat_map (fun c => map report_file (files c))
                           changes))
              +:+ " changes found for the configured Moodle-Account.")]
        else [])
    ++ flat_map
         (fun c =>
            Print (COLOR_SEQ BLUE +:+ fullname c +:+ RESET_SEQ)
            :: map report_file (files c) ++ [Print NEWLINE])
         (List.filter (fun c => Nat.ltb 0 (length (files c))) changes)
  /\ flat_map (fun c => map report_file (files c))
       (List.filter (fun c => Nat.ltb 0 (length (files c))) changes)
     = flat_map (fun c => map report_file (files c)) changes.
Proof.
  split.
  - unfold notify_about_changes_in_moodle.
    rewrite count_changes_file_lines. f_equal. f_equal.
    + destruct (Nat.ltb 0 _) eqn:Hn.
      * apply Nat.ltb_lt in Hn. now rewrite bool_decide_eq_true_2.
      * apply Nat.ltb_ge in Hn. rewrite bool_decide_eq_false_2 by lia.
        reflexivity.
    + induction changes as [|c changes IH]; [reflexivity|].
      cbn [flat_map List.filter]. unfold report_course at 1.
      destruct (files c) as [|f fs] eqn:Hf; cbn [length Nat.ltb Nat.leb].
      * rewrite bool_decide_eq_true_2 by reflexivity. exact IH.
      * rewrite bool_decide_eq_false_2 by discriminate.
        cbn [flat_map]. rewrite Hf, IH. reflexivity.
  - induction changes as [|c changes IH]; [reflexivity|].
    cbn [flat_map List.filter].
    destruct (files c) as [|f fs] eqn:Hf.
    + change (Nat.ltb 0 (length (@nil File))) with false. exact IH.
    + change (Nat.ltb 0 (length (f :: fs))) with true.
      cbn [flat_map]. rewrite Hf, IH. reflexivity.
Qed.

End ConsoleProperties.

(** ** ConfigService: the dialogs *)

Section ConfigServiceProperties.
Import Py Objects ConfigService.

Variable json_dumps : gmap string value -> string.
Variable special_str : string -> string.
Variable _should_download_course : Z -> value -> value -> bool.

Lemma on_helper_getter key dflt w :
  on_helper
    (try_except (ConfigHelper.get_property key) is_ValueError (ret dflt)) w
  = (inr (default dflt
            (ConfigHelper._whole_config (config_helper w) !! key)), w).
Proof.
  unfold on_helper. rewrite default_getter. now destruct w.
Qed.

(** Runs a dialog that reads one setting through a getter with a default
    and ends with [set_property]. *)
Ltac run_dialog getter :=
  unfold bind, getter; rewrite on_helper_getter; cbn;
  rewrite <- ?app_assoc; reflexivity.

Lemma select_submissions_run answer w :
  _select_should_download_submissions json_dumps special_str answer w
  = (inr tt,
     {| config_helper :=
          ConfigHelper.stored json_dumps "download_submissions"
            (VBool answer) (config_helper w);
        terminal :=
          terminal w ++
          [ Print EmptyString;
            LogInfo
              ("Submissions are files that you or a teacher have uploaded"
               +:+ " to your assignments. Moodle does not provide an"
               +:+ " interface for downloading information from all"
               +:+ " submissions to a course at once.");
            LogWarning
              "Therefore, it may be slow to monitor changes to submissions.";
            Print EmptyString;
            PromptYesOrNo
              (special_str
                 "Do you want to download submissions of your assignments?")
              (default (VBool false)
                 (ConfigHelper._whole_config (config_helper w)
                    !! "download_submissions")) ] |}).
Proof.
  unfold _select_should_download_submissions.
  run_dialog ConfigHelper.get_download_submissions.
Qed.

Lemma select_databases_run answer w :
  exists messages,
    _select_should_download_databases json_dumps special_str answer w
    = (inr tt,
       {| config_helper :=
            ConfigHelper.stored json_dumps "download_databases"
              (VBool answer) (config_helper w);
          terminal :=
            terminal w ++ messages ++
            [ PromptYesOrNo
                (special_str
                   "Do you want to download databases of your courses?")
                (default (VBool false)
                   (ConfigHelper._whole_config (config_helper w)
                      !! "download_databases")) ] |})
    /\ List.filter is_prompt messages = [].
Proof.
  eexists [_; _; _]. split.
  - unfold _select_should_download_databases.
    run_dialog ConfigHelper.get_download_databases.
  - reflexivity.
Qed.

Lemma select_descriptions_run answer w :
  exists messages,
    _select_should_download_descriptions json_dumps special_str answer w
    = (inr tt,
       {| config_helper :=
            ConfigHelper.stored json_dumps "download_descriptions"
              (VBool answer) (config_helper w);
          terminal :=
            terminal w ++ messages ++
            [ PromptYesOrNo
                (special_str
                   "Would you like to download descriptions of the courses you have selected?")
                (default (VBool false)
                   (ConfigHelper._whole_config (config_helper w)
                      !! "download_descriptions")) ] |})
    /\ List.filter is_prompt messages = [].
Proof.
  eexists [_; _; _; _]. split.
  - unfold _select_should_download_descriptions.
    run_dialog ConfigHelper.get_download_descriptions.
  - reflexivity.
Qed.

Lemma select_linked_files_run answer w :
  exists messages,
    _select_should_download_linked_files json_dumps answer w
    = (inr tt,
       {| config_helper :=
            ConfigHelper.stored json_dumps "download_linked_files"
              (VBool answer) (config_helper w);
          terminal :=
            terminal w ++ messages ++
            [ PromptYesOrNo
                "Would you like to download linked files of the courses you have selected?"
                (default (VBool false)
                   (ConfigHelper._whole_config (config_helper w)
                      !! "download_linked_files")) ] |})
    /\ List.filter is_prompt messages = [].
Proof.
  eexists [_; _; _; _; _; _; _]. split.
  - unfold _select_should_download_linked_files.
    run_dialog ConfigHelper.get_download_linked_files.
  - reflexivity.
Qed.

Lemma select_courses_run courses selected_courses w :
  _select_courses_to_download json_dumps _should_download_course courses
    selected_courses w
  = (inr tt,
     {| config_helper :=
          ConfigHelper.removed json_dumps "dont_download_course_ids"
            (ConfigHelper.stored json_dumps "download_course_ids"
               (VList (map VInt
                         (selected_ids_from 0 courses selected_courses)))
               (config_helper w));
        terminal :=
          terminal w ++
          [ Print EmptyString;
            LogInfo
              ("To avoid downloading all the Moodle courses you are enrolled in, you can select which ones you want"
               +:+ " to download here. ");
            Print EmptyString;
            LogSpecial "Which of the courses should be downloaded?";
            LogInfo
              "[You can select with the space bar and confirm your selection with the enter key]";
            Print EmptyString;
            SelectMultiple (map choice courses)
              (defaults_from _should_download_course 0 courses
                 (default (VList [])
                    (ConfigHelper._whole_config (config_helper w)
                       !! "download_course_ids"))
                 (default (VList [])
                    (ConfigHelper._whole_config (config_helper w)
                       !! "dont_download_course_ids"))) ] |}).
Proof.
  unfold _select_courses_to_download, bind,
    ConfigHelper.get_download_course_ids,
    ConfigHelper.get_dont_download_course_ids.
  rewrite !on_helper_getter. cbn. rewrite <- ?app_assoc. reflexivity.
Qed.

Lemma selected_ids_from_elem courses selected_courses z : forall i,
  z ∈ selected_ids_from i courses selected_courses <->
  exists j c, courses !! j = Some c /\ i + j ∈ selected_courses /\ id c = z.
Proof.
  induction courses as [|c0 courses IH]; intros i; cbn.
  - split; [intros H; now apply not_elem_of_nil in H|].
    intros (j & c & Hj & _). discriminate.
  - rewrite elem_of_app, IH. split.
    + intros [Hhead|(j & c & Hj & Hsel & Hid)].
      * case_bool_decide as Hi; [|now apply not_elem_of_nil in Hhead].
        apply list_elem_of_singleton in Hhead as ->.
        exists 0, c0. rewrite Nat.add_0_r. auto.
      * exists (S j), c. replace (i + S j) with (S i + j) by lia. auto.
    + intros ([|j] & c & Hj & Hsel & Hid).
      * left. injection Hj as ->. rewrite Nat.add_0_r in Hsel.
        rewrite bool_decide_eq_true_2 by assumption.
        apply list_elem_of_singleton. congruence.
      * right. exists j, c. replace (S i + j) with (i + S j) by lia. auto.
Qed.

Lemma selected_ids_from_sublist courses selected_courses : forall i,
  sublist (selected_ids_from i courses selected_courses) (map id courses).
Proof.
  induction courses as [|c0 courses IH]; intros i; cbn; [constructor|].
  case_bool_decide; cbn; [apply sublist_skip | apply sublist_cons]; apply IH.
Qed.

Lemma defaults_from_elem courses allow deny k : forall i,
  k ∈ defaults_from _should_download_course i courses allow deny <->
  exists j c, courses !! j = Some c /\ k = i + j
    /\ _should_download_course (id c) allow deny = true.
Proof.
  induction courses as [|c0 courses IH]; intros i; cbn.
  - split; [intros H; now apply not_elem_of_nil in H|].
    intros (j & c & Hj & _). discriminate.
  - rewrite elem_of_app, IH. split.
    + intros [Hhead|(j & c & Hj & Hk & Hs)].
      * destruct (_should_download_course (id c0) allow deny) eqn:Hs;
          [|now apply not_elem_of_nil in Hhead].
        apply list_elem_of_singleton in Hhead as ->.
        exists 0, c0. rewrite Nat.add_0_r. auto.
      * exists (S j), c. split; [assumption|]. split; [lia | assumption].
    + intros ([|j] & c & Hj & Hk & Hs).
      * left. injection Hj as ->. rewrite Nat.add_0_r in Hk. subst k.
        rewrite Hs. apply list_elem_of_singleton. reflexivity.
      * right. exists j, c. split; [assumption|]. split; [lia | assumption].
Qed.

(** X14: each of the four yes-or-no dialogs ends without an exception
    and stores the answer, as a boolean, under its own key: the
    dictionary changes at that key only, the configuration file holds the
    new dictionary, and the getter of the setting returns the answer. *)
Theorem toggle_dialogs_store_the_answer answer w :
  (fst (_select_should_download_submissions json_dumps special_str answer w)
   = inr tt
   /\ config_helper
        (Py.world (_select_should_download_submissions json_dumps special_str
                  answer) w)
      = ConfigHelper.stored json_dumps "download_submissions" (VBool answer)
          (config_helper w)
   /\ fst (ConfigHelper.get_download_submissions
             (config_helper
                (Py.world (_select_should_download_submissions json_dumps
                          special_str answer) w)))
      = inr (VBool answer))
  /\ (fst (_select_should_download_databases json_dumps special_str answer w)
      = inr tt
      /\ config_helper
           (Py.world (_select_should_download_databases json_dumps special_str
                     answer) w)
         = ConfigHelper.stored json_dumps "download_databases"
             (VBool answer) (config_helper w)
      /\ fst (ConfigHelper.get_download_databases
                (config_helper
                   (Py.world (_select_should_download_databases json_dumps
                             special_str answer) w)))
         = inr (VBool answer))
  /\ (fst (_select_should_download_descriptions json_dumps special_str
             answer w)
      = inr tt
      /\ config_helper
           (Py.world (_select_should_download_descriptions json_dumps
                     special_str answer) w)
         = ConfigHelper.stored json_dumps "download_descriptions"
             (VBool answer) (config_helper w)
      /\ fst (ConfigHelper.get_download_descriptions
                (config_helper
                   (Py.world (_select_should_download_descriptions json_dumps
                             special_str answer) w)))
         = inr (VBool answer))
  /\ (fst (_select_should_download_linked_files json_dumps answer w)
      = inr tt
      /\ config_helper
           (Py.world (_select_should_download_linked_files json_dumps answer) w)
         = ConfigHelper.stored json_dumps "download_linked_files"
             (VBool answer) (config_helper w)
      /\ fst (ConfigHelper.get_download_linked_files
                (config_helper
                   (Py.world (_select_should_download_linked_files json_dumps
                             answer) w)))
         = inr (VBool answer)).
Proof.
  unfold Py.world.
  rewrite select_submissions_run.
  destruct (select_databases_run answer w) as (m1 & -> & _).
  destruct (select_descriptions_run answer w) as (m2 & -> & _).
  destruct (select_linked_files_run answer w) as (m3 & -> & _).
  cbn [fst snd config_helper].
  unfold ConfigHelper.get_download_submissions,
    ConfigHelper.get_download_databases,
    ConfigHelper.get_download_descriptions,
    ConfigHelper.get_download_linked_files.
  rewrite !default_getter. cbn. rewrite !lookup_insert_eq.
  repeat split.
Qed.

(** X15: each of the four dialogs asks exactly one question, and the
    default it offers is the value that is configured at that moment,
    [False] when the key is not configured. *)
Theorem toggle_dialogs_offer_the_current_setting answer w :
  List.filter is_prompt
    (terminal
       (Py.world (_select_should_download_submissions json_dumps special_str
                 answer) w))
  = List.filter is_prompt (terminal w) ++
    [ PromptYesOrNo
        (special_str
           "Do you want to download submissions of your assignments?")
        (default (VBool false)
           (ConfigHelper._whole_config (config_helper w)
              !! "download_submissions")) ]
  /\ List.filter is_prompt
       (terminal
          (Py.world (_select_should_download_databases json_dumps special_str
                    answer) w))
     = List.filter is_prompt (terminal w) ++
       [ PromptYesOrNo
           (special_str "Do you want to download databases of your courses?")
           (default (VBool false)
              (ConfigHelper._whole_config (config_helper w)
                 !! "download_databases")) ]
  /\ List.filter is_prompt
       (terminal
          (Py.world (_select_should_download_descriptions json_dumps
                    special_str answer) w))
     = List.filter is_prompt (terminal w) ++
       [ PromptYesOrNo
           (special_str
              "Would you like to download descriptions of the courses you have selected?")
           (default (VBool false)
              (ConfigHelper._whole_config (config_helper w)
                 !! "download_descriptions")) ]
  /\ List.filter is_prompt
       (terminal
          (Py.world (_select_should_download_linked_files json_dumps answer) w))
     = List.filter is_prompt (terminal w) ++
       [ PromptYesOrNo
           "Would you like to download linked files of the courses you have selected?"
           (default (VBool false)
              (ConfigHelper._whole_config (config_helper w)
                 !! "download_linked_files")) ].
Proof.
  unfold Py.world.
  rewrite select_submissions_run.
  destruct (select_databases_run answer w) as (m1 & -> & Hm1).
  destruct (select_descriptions_run answer w) as (m2 & -> & Hm2).
  destruct (select_linked_files_run answer w) as (m3 & -> & Hm3).
  cbn [snd terminal].
  rewrite !List.filter_app, Hm1, Hm2, Hm3. repeat split.
Qed.

(** X16: [_select_courses_to_download] stores as allow-list the ids of
    the courses whose position was selected, in the order of the courses
    (a position beyond the list selects nothing), and removes the
    deny-list: afterwards [get_download_course_ids] returns exactly these
    ids and [get_dont_download_course_ids] returns the empty list, and
    the configuration file holds the new dictionary. *)
Theorem select_courses_stores_the_selection courses selected_courses w :
  fst (_select_courses_to_download json_dumps _should_download_course
         courses selected_courses w) = inr tt
  /\ ConfigHelper._whole_config
       (config_helper
          (Py.world (_select_courses_to_download json_dumps
                    _should_download_course courses selected_courses) w))
     = delete "dont_download_course_ids"
         (<["download_course_ids" :=
              VList (map VInt (selected_ids_from 0 courses selected_courses))]>
            (ConfigHelper._whole_config (config_helper w)))
  /\ (forall z,
        z ∈ selected_ids_from 0 courses selected_courses <->
        exists i c, courses !! i = Some c /\ i ∈ selected_courses
                    /\ id c = z)
  /\ sublist (selected_ids_from 0 courses selected_courses) (map id courses)
  /\ ConfigHelper.get_download_course_ids
       (config_helper
          (Py.world (_select_courses_to_download json_dumps
                    _should_download_course courses selected_courses) w))
     = (inr (VList (map VInt
                      (selected_ids_from 0 courses selected_courses))),
        config_helper
          (Py.world (_select_courses_to_download json_dumps
                    _should_download_course courses selected_courses) w))
  /\ ConfigHelper.get_dont_download_course_ids
       (config_helper
          (Py.world (_select_courses_to_download json_dumps
                    _should_download_course courses selected_courses) w))
     = (inr (VList []),
        config_helper
          (Py.world (_select_courses_to_download json_dumps
                    _should_download_course courses selected_courses) w))
  /\ ConfigHelper.in_sync json_dumps
       (config_helper
          (Py.world (_select_courses_to_download json_dumps
                    _should_download_course courses selected_courses) w)).
Proof.
  unfold Py.world. rewrite select_courses_run. cbn [fst snd config_helper].
  split; [reflexivity|]. split; [reflexivity|].
  split; [intros z; apply (selected_ids_from_elem courses _ z 0)|].
  split; [apply selected_ids_from_sublist|].
  unfold ConfigHelper.get_download_course_ids,
    ConfigHelper.get_dont_download_course_ids.
  rewrite !default_getter. cbn.
  rewrite lookup_delete_ne by discriminate.
  rewrite lookup_insert_eq, lookup_delete_eq.
  split; [reflexivity|]. split; [reflexivity|].
  unfold ConfigHelper.in_sync. cbn. apply lookup_insert_eq.
Qed.

(** X17: [_select_courses_to_download] asks one question: it offers one
    line for every course, in the order of the courses, and has ticked
    beforehand exactly the positions of the courses that the configured
    allow-list and deny-list select, each list being empty when it is not
    configured. *)
Theorem select_courses_offers_every_course courses selected_courses w :
  exists ticked,
    List.filter is_prompt
      (terminal
         (Py.world (_select_courses_to_download json_dumps
                   _should_download_course courses selected_courses) w))
    = List.filter is_prompt (terminal w)
      ++ [SelectMultiple (map choice courses) ticked]
    /\ length (map choice courses) = length courses
    /\ (forall i,
          i ∈ ticked <->
          exists c, courses !! i = Some c
            /\ _should_download_course (id c)
                 (default (VList [])
                    (ConfigHelper._whole_config (config_helper w)
                       !! "download_course_ids"))
                 (default (VList [])
                    (ConfigHelper._whole_config (config_helper w)
                       !! "dont_download_course_ids")) = true).
Proof.
  eexists. unfold Py.world. rewrite select_courses_run. cbn [snd terminal].
  split; [rewrite List.filter_app; reflexivity|].
  split; [apply length_map|].
  intros i. rewrite defaults_from_elem. split.
  - intros (j & c & Hj & -> & Hs). exists c. auto.
  - intros (c & Hi & Hs). exists i, c. auto.
Qed.

End ConfigServiceProperties.

(** ** The options of the courses: written by the dialog, read back by
       [add_options_to_courses] *)

Section CourseOptionsProperties.
Import Py PyDict Objects ConfigService CourseOptions.

Variable json_dumps : gmap string value -> string.
Variable special_str : string -> string.

Lemma dict_get_update_eq key v d :
  dict_get key (ConfigHelper.dict_update key v d) = Some v.
Proof.
  induction d as [|[k w] d IH]; cbn.
  - now rewrite String.eqb_refl.
  - destruct (String.eqb k key) eqn:Hk; cbn; rewrite Hk; [reflexivity|].
    exact IH.
Qed.

Lemma dict_get_update_ne key key' v d :
  key' <> key ->
  dict_get key' (ConfigHelper.dict_update key v d) = dict_get key' d.
Proof.
  intros Hne. induction d as [|[k w] d IH]; cbn.
  - now rewrite (proj2 (String.eqb_neq key key')) by congruence.
  - destruct (String.eqb k key) eqn:Hk; cbn.
    + apply String.eqb_eq in Hk. subst k.
      now rewrite (proj2 (String.eqb_neq key key')) by congruence.
    + destruct (String.eqb k key'); [reflexivity | exact IH].
Qed.

Lemma entered_name_cases typed :
  entered_name typed = VNone \/ exists s, entered_name typed = VStr s.
Proof. unfold entered_name. destruct (String.eqb typed EmptyString); eauto. Qed.

Lemma differs_from_false v typed :
  differs_from v (entered_name typed) = false -> v = entered_name typed.
Proof.
  destruct (entered_name_cases typed) as [->|[s ->]]; destruct v; cbn;
    try discriminate; [reflexivity|].
  intros H. apply negb_false_iff, String.eqb_eq in H. now subst.
Qed.

Lemma differs_from_same typed :
  differs_from (entered_name typed) (entered_name typed) = false.
Proof.
  destruct (entered_name_cases typed) as [->|[s ->]]; cbn; [reflexivity|].
  now rewrite String.eqb_refl.
Qed.

Lemma is_not_false answer v : is_not answer v = false -> v = VBool answer.
Proof.
  destruct v; cbn; try discriminate.
  intros H. apply negb_false_iff, Bool.eqb_prop in H. now subst.
Qed.

Lemma is_not_same answer : is_not answer (VBool answer) = false.
Proof. cbn. now rewrite Bool.eqb_reflx. Qed.

Lemma rename_keeps key course name settings :
  key <> "overwrite_name_with" ->
  dict_get key (fst (rename course name settings)) = dict_get key settings.
Proof.
  intros Hne. unfold rename.
  destruct (_ && _); cbn; [now apply dict_get_update_ne | reflexivity].
Qed.

(** Whether the dialog found a change. *)
Lemma changed_spec course typed answer settings :
  snd (restructure answer (rename course (entered_name typed) settings))
  = differs_from (VStr (fullname course)) (entered_name typed)
    && differs_from
         (default VNone (dict_get "overwrite_name_with" settings))
         (entered_name typed)
    || is_not answer
         (default (VBool true)
            (dict_get "create_directory_structure" settings)).
Proof.
  unfold restructure.
  rewrite rename_keeps by discriminate.
  destruct (is_not answer _); cbn; [now rewrite orb_true_r|].
  rewrite orb_false_r. unfold rename. now destruct (_ && _).
Qed.

(** What the settings of the course are when the dialog is through. *)
Lemma edited_settings course typed answer settings :
  default (VBool true)
    (dict_get "create_directory_structure"
       (fst (restructure answer
               (rename course (entered_name typed) settings))))
  = VBool answer
  /\ (entered_name typed <> VStr (fullname course) ->
        default VNone
          (dict_get "overwrite_name_with"
             (fst (restructure answer
                     (rename course (entered_name typed) settings))))
        = entered_name typed)
  /\ (entered_name typed = VStr (fullname course) ->
        dict_get "overwrite_name_with"
          (fst (restructure answer
                  (rename course (entered_name typed) settings)))
        = dict_get "overwrite_name_with" settings)
  /\ (forall key,
        key <> "overwrite_name_with" ->
        key <> "create_directory_structure" ->
        dict_get key
          (fst (restructure answer
                  (rename course (entered_name typed) settings)))
        = dict_get key settings).
Proof.
  unfold restructure.
  destruct (is_not answer _) eqn:Hdir; cbn [fst].
  - rewrite dict_get_update_eq.
    rewrite !dict_get_update_ne by discriminate.
    split; [reflexivity|]. split; [|split].
    + intros Hname. unfold rename.
      destruct (differs_from (VStr (fullname course)) (entered_name typed))
        eqn:Hfull; cbn [andb].
      * destruct (differs_from
                    (default VNone (dict_get "overwrite_name_with" settings))
                    (entered_name typed)) eqn:Hold; cbn [fst].
        -- now rewrite dict_get_update_eq.
        -- now apply differs_from_false in Hold.
      * apply differs_from_false in Hfull. congruence.
    + intros Hname. unfold rename. rewrite Hname. cbn.
      now rewrite String.eqb_refl.
    + intros key Hn Hd. rewrite dict_get_update_ne by congruence.
      now apply rename_keeps.
  - apply is_not_false in Hdir. split; [exact Hdir|]. split; [|split].
    + intros Hname. unfold rename.
      destruct (differs_from (VStr (fullname course)) (entered_name typed))
        eqn:Hfull; cbn [andb].
      * destruct (differs_from
                    (default VNone (dict_get "overwrite_name_with" settings))
                    (entered_name typed)) eqn:Hold; cbn [fst].
        -- now rewrite dict_get_update_eq.
        -- now apply differs_from_false in Hold.
      * apply differs_from_false in Hfull. congruence.
    + intros Hname. unfold rename. rewrite Hname. cbn.
      now rewrite String.eqb_refl.
    + intros key Hn Hd. now apply rename_keeps.
Qed.

Lemma change_settings_run course options_of_courses typed answer w settings :
  current_settings course options_of_courses = Some settings ->
  _change_settings_of json_dumps special_str course options_of_courses typed
    answer w
  = Some
      (inr tt,
       {| config_helper :=
            if snd (restructure answer
                      (rename course (entered_name typed) settings))
            then ConfigHelper.stored json_dumps "options_of_courses"
                   (VDict
                      (ConfigHelper.dict_update (pretty (id course))
                         (VDict
                            (fst (restructure answer
                                    (rename course (entered_name typed)
                                       settings))))
                         options_of_courses))
                   (config_helper w)
            else config_helper w;
          terminal :=
            terminal w ++
            [ Input
                (special_str
                   ("Enter a new name for this Course [leave blank for "
                    +:+ String (ascii_of_nat 34) EmptyString
                    +:+ fullname course
                    +:+ String (ascii_of_nat 34) EmptyString +:+ "]:   "));
              PromptYesOrNo
                (special_str
                   "Should a directory structure be created for this course?")
                (default (VBool true)
                   (dict_get "create_directory_structure" settings)) ] |}).
Proof.
  intros Hs. unfold _change_settings_of. rewrite Hs. cbn [mbind option_bind].
  unfold bind at 1. cbn [emit modify]. unfold bind at 1. cbn [emit modify].
  rewrite rename_keeps by discriminate.
  destruct (snd (restructure answer _)); cbn;
    rewrite <- app_assoc; destruct w; reflexivity.
Qed.

(** X18: the dialog writes nothing when nothing changes: when the name
    that was entered is the full name of the course or the overwrite name
    the settings already hold (a blank entry standing for none), and the
    answer is the directory setting they already hold, the method ends
    after its two questions with the helper and the configuration file as
    they were. *)
Theorem change_settings_without_change_writes_nothing
    course options_of_courses typed answer w settings :
  current_settings course options_of_courses = Some settings ->
  entered_name typed = VStr (fullname course)
  \/ default VNone (dict_get "overwrite_name_with" settings)
     = entered_name typed ->
  default (VBool true) (dict_get "create_directory_structure" settings)
  = VBool answer ->
  exists w',
    _change_settings_of json_dumps special_str course options_of_courses
      typed answer w = Some (inr tt, w')
    /\ config_helper w' = config_helper w
    /\ length (List.filter is_prompt (terminal w'))
       = length (List.filter is_prompt (terminal w)) + 2.
Proof.
  intros Hs Hname Hdir. eexists.
  split; [apply (change_settings_run _ _ _ _ _ _ Hs)|].
  cbn [config_helper terminal]. rewrite changed_spec, Hdir, is_not_same.
  assert (Hsame :
    differs_from (VStr (fullname course)) (entered_name typed)
    && differs_from
         (default VNone (dict_get "overwrite_name_with" settings))
         (entered_name typed) = false).
  { destruct Hname as [->| ->].
    - cbn. now rewrite String.eqb_refl.
    - rewrite differs_from_same. apply andb_false_r. }
  rewrite Hsame. cbn [orb]. split; [reflexivity|].
  rewrite List.filter_app, length_app. reflexivity.
Qed.

(** X19: when the entered name is a new one or the answer differs from
    the directory setting, the dialog stores the settings of the course
    under the decimal text of its id: afterwards
    [get_options_of_courses] returns the options with this entry, in
    which the directory setting is the answer and the overwrite name is
    the entered name, unless the full name of the course was entered,
    which leaves the overwrite name as it was; every other key of the
    entry and the entries of the other courses are as before, and the
    configuration file holds the new dictionary. *)
Theorem change_settings_stores_the_settings
    course options_of_courses typed answer w settings :
  current_settings course options_of_courses = Some settings ->
  differs_from (VStr (fullname course)) (entered_name typed)
  && differs_from (default VNone (dict_get "overwrite_name_with" settings))
       (entered_name typed)
  || is_not answer
       (default (VBool true)
          (dict_get "create_directory_structure" settings)) = true ->
  exists w' options' settings',
    _change_settings_of json_dumps special_str course options_of_courses
      typed answer w = Some (inr tt, w')
    /\ ConfigHelper.get_options_of_courses (config_helper w')
       = (inr (VDict options'), config_helper w')
    /\ ConfigHelper.in_sync json_dumps (config_helper w')
    /\ dict_get (pretty (id course)) options' = Some (VDict settings')
    /\ (forall key, key <> pretty (id course) ->
          dict_get key options' = dict_get key options_of_courses)
    /\ default (VBool true)
         (dict_get "create_directory_structure" settings') = VBool answer
    /\ (entered_name typed <> VStr (fullname course) ->
          default VNone (dict_get "overwrite_name_with" settings')
          = entered_name typed)
    /\ (entered_name typed = VStr (fullname course) ->
          dict_get "overwrite_name_with" settings'
          = dict_get "overwrite_name_with" settings)
    /\ (forall key,
          key <> "overwrite_name_with" ->
          key <> "create_directory_structure" ->
          dict_get key settings' = dict_get key settings).
Proof.
  intros Hs Hchanged. eexists _, _, _.
  split; [apply (change_settings_run _ _ _ _ _ _ Hs)|].
  cbn [config_helper]. rewrite changed_spec, Hchanged.
  split.
  { unfold ConfigHelper.get_options_of_courses. rewrite default_getter.
    cbn. rewrite lookup_insert_eq. reflexivity. }
  split; [unfold ConfigHelper.in_sync; cbn; apply lookup_insert_eq|].
  split; [apply dict_get_update_eq|].
  split; [intros key Hne; now apply dict_get_update_ne|].
  apply edited_settings.
Qed.

Lemma add_options_loop_spec options_of_courses (h : heap) courses :
  forall attributes attributes',
  add_options_loop options_of_courses courses h attributes
  = Some attributes' ->
  (forall l, l ∉ courses -> attributes' !! l = attributes !! l)
  /\ (forall l c, l ∈ courses -> h !! l = Some c ->
        match get_or_None options_of_courses (pretty (id c)) with
        | Some (Some options) =>
            is_Some (options_of options)
            /\ attributes' !! l = options_of options
        | _ => attributes' !! l = attributes !! l
        end).
Proof.
  induction courses as [|course rest IH]; intros attributes attributes'.
  - cbn. intros [= <-]. split; [reflexivity|].
    intros l c Hl. now apply not_elem_of_nil in Hl.
  - cbn. destruct (h !! course) as [c0|] eqn:Hc0; cbn; [|discriminate].
    destruct (get_or_None options_of_courses (pretty (id c0)))
      as [[options|]|] eqn:Hget; cbn; [| |discriminate].
    + destruct (options_of options) as [a|] eqn:Ha; cbn; [|discriminate].
      intros Hrun. destruct (IH _ _ Hrun) as [Hout Hin]. split.
      * intros l Hl. apply not_elem_of_cons in Hl as [Hne Hl].
        rewrite (Hout l Hl). now apply lookup_insert_ne.
      * intros l c Hl Hc.
        destruct (decide (l ∈ rest)) as [Hrest|Hrest].
        -- specialize (Hin l c Hrest Hc).
           destruct (decide (course = l)) as [<-|Hne].
           ++ rewrite Hc0 in Hc. injection Hc as <-.
              rewrite Hget in Hin |- *. exact Hin.
           ++ destruct (get_or_None options_of_courses (pretty (id c)))
                as [[o|]|]; [assumption | |];
                rewrite Hin; now apply lookup_insert_ne.
        -- apply elem_of_cons in Hl as [->|Hl]; [|contradiction].
           rewrite Hc0 in Hc. injection Hc as <-. rewrite Hget.
           rewrite (Hout course Hrest), lookup_insert_eq, Ha. eauto.
    + intros Hrun. destruct (IH _ _ Hrun) as [Hout Hin]. split.
      * intros l Hl. apply not_elem_of_cons in Hl as [Hne Hl]. auto.
      * intros l c Hl Hc.
        destruct (decide (l ∈ rest)) as [Hrest|Hrest]; [now apply Hin|].
        apply elem_of_cons in Hl as [->|Hl]; [|contradiction].
        rewrite Hc0 in Hc. injection Hc as <-. rewrite Hget. auto.
Qed.

(** X20: [add_options_to_courses] returns the list it was given and only
    reads the helper.  When it succeeds, a course object outside the list
    keeps its two attributes, a course of the list whose id, in decimal,
    has no entry in the configured options keeps them too, and a course
    with an entry gets the overwrite name and the directory setting of
    the entry, [None] and [True] standing in for a missing key.  Without
    configured options it succeeds and assigns nothing. *)
Theorem add_options_assigns_the_configured_options
    courses (h : heap) attributes st :
  (forall attributes' out,
     add_options_to_courses courses h attributes st
     = Some (attributes', out) ->
     out = courses
     /\ (forall l, l ∉ courses -> attributes' !! l = attributes !! l)
     /\ (forall l c, l ∈ courses -> h !! l = Some c ->
           match get_or_None
                   (default (VDict [])
                      (ConfigHelper._whole_config st
                         !! "options_of_courses"))
                   (pretty (id c)) with
           | Some (Some options) =>
               is_Some (options_of options)
               /\ attributes' !! l = options_of options
           | _ => attributes' !! l = attributes !! l
           end))
  /\ (ConfigHelper._whole_config st !! "options_of_courses" = None ->
      (forall l, l ∈ courses -> is_Some (h !! l)) ->
      add_options_to_courses courses h attributes st
      = Some (attributes, courses)).
Proof.
  unfold add_options_to_courses, ConfigHelper.get_options_of_courses.
  rewrite default_getter. cbn [fst]. split.
  - intros attributes' out.
    destruct (add_options_loop _ courses h attributes) as [a|] eqn:Hrun;
      cbn; [|discriminate].
    intros [= <- <-]. split; [reflexivity|].
    now apply add_options_loop_spec.
  - intros -> Hvalid. cbn [default].
    assert (Hloop : add_options_loop (VDict []) courses h attributes
                    = Some attributes).
    { induction courses as [|course rest IH]; [reflexivity|].
      cbn. destruct (Hvalid course) as [c Hc]; [left|].
      rewrite Hc. cbn. apply IH. intros l Hl. apply Hvalid. now right. }
    now rewrite Hloop.
Qed.

(** X21: what the dialog stores, [add_options_to_courses] reads back:
    after a dialog that found a change, the course object gets the
    answer as its directory setting and, unless the full name of the
    course was entered, the entered name as its overwrite name. *)
Theorem changed_settings_reach_the_course
    course options_of_courses typed answer w settings (h : heap) r
    attributes :
  current_settings course options_of_courses = Some settings ->
  differs_from (VStr (fullname course)) (entered_name typed)
  && differs_from (default VNone (dict_get "overwrite_name_with" settings))
       (entered_name typed)
  || is_not answer
       (default (VBool true)
          (dict_get "create_directory_structure" settings)) = true ->
  h !! r = Some course ->
  exists w' a,
    _change_settings_of json_dumps special_str course options_of_courses
      typed answer w = Some (inr tt, w')
    /\ add_options_to_courses [r] h attributes (config_helper w')
       = Some (<[r := a]> attributes, [r])
    /\ create_directory_structure a = VBool answer
    /\ (entered_name typed <> VStr (fullname course) ->
          overwrite_name_with a = entered_name typed).
Proof.
  intros Hs Hchanged Hr.
  destruct (edited_settings course typed answer settings)
    as (Hdir & Hname & _).
  eexists _, _.
  split; [apply (change_settings_run _ _ _ _ _ _ Hs)|].
  cbn [config_helper]. rewrite changed_spec, Hchanged.
  unfold add_options_to_courses, ConfigHelper.get_options_of_courses.
  rewrite default_getter. cbn [fst ConfigHelper.stored
    ConfigHelper._whole_config]. rewrite lookup_insert_eq. cbn [default].
  cbn [add_options_loop]. rewrite Hr. cbn [mbind option_bind].
  unfold Datatypes.id, get_or_None. rewrite dict_get_update_eq. cbn.
  split; [reflexivity|]. split; [exact Hdir | exact Hname].
Qed.

End CourseOptionsProperties.

(** ** The further properties on the examples *)

Section FurtherExamples.
Import Py PyDict Objects.

Lemma set_property_then_get_witness :
  "options_of_courses" <> "token"
  /\ fst (ConfigHelper.get_property "options_of_courses"
            (world (ConfigHelper.set_property (fun _ => "{}") "token"
                      (VStr "abc")) ConfigHelper.example_state))
     = fst (ConfigHelper.get_property "options_of_courses"
              ConfigHelper.example_state).
Proof.
  assert (Hne : "options_of_courses" <> "token") by discriminate.
  split; [exact Hne|].
  exact (proj1 (proj2 (set_property_then_get (fun _ => "{}") "token"
                         (VStr "abc") ConfigHelper.example_state))
           "options_of_courses" Hne).
Defined.

Lemma remove_property_then_get_witness :
  ConfigHelper._whole_config ConfigHelper.example_state !! "token" = None
  /\ ConfigHelper.remove_property (fun _ => "{}") "token"
       ConfigHelper.example_state
     = (inr tt,
        ConfigHelper.with_fs
          (<[ConfigHelper.config_path ConfigHelper.example_state :=
               "{}"]> (ConfigHelper.fs ConfigHelper.example_state))
          ConfigHelper.example_state).
Proof.
  assert (Hk : ConfigHelper._whole_config ConfigHelper.example_state
               !! "token" = None) by (vm_compute; reflexivity).
  split; [exact Hk|].
  exact (proj2 (proj2 (remove_property_then_get (fun _ => "{}") "token"
                         ConfigHelper.example_state)) Hk).
Defined.

Lemma writes_keep_file_in_sync_witness :
  ConfigHelper._whole_config ConfigHelper.example_state
    !! "filename_character_map" = None
  /\ ConfigHelper.in_sync (fun _ => "{}")
       (world (ConfigHelper.get_filename_character_map (fun _ => "{}"))
          ConfigHelper.example_state).
Proof.
  assert (Hk : ConfigHelper._whole_config ConfigHelper.example_state
               !! "filename_character_map" = None)
    by (vm_compute; reflexivity).
  split; [exact Hk|].
  exact (proj2 (proj2 (proj2 (proj2
           (writes_keep_file_in_sync (fun _ => "{}")
              ConfigHelper.example_state)))) Hk).
Defined.

Lemma getters_on_present_key_witness :
  ConfigHelper._whole_config ConfigHelper.example_state
    !! "options_of_courses" = Some (VDict [])
  /\ ConfigHelper.get_options_of_courses ConfigHelper.example_state
     = (inr (VDict []), ConfigHelper.example_state).
Proof.
  assert (Hk : ConfigHelper._whole_config ConfigHelper.example_state
               !! "options_of_courses" = Some (VDict []))
    by (vm_compute; reflexivity).
  split; [exact Hk|].
  destruct (getters_on_present_key (fun _ => "{}")
              ConfigHelper.example_state (VDict []))
    as (_ & _ & _ & _ & _ & _ & H & _).
  exact (H Hk).
Defined.

Lemma load_without_usable_file_witness :
  ConfigHelper.fs ConfigHelper.example_state
    !! ConfigHelper.config_path ConfigHelper.example_state = None
  /\ ConfigHelper.is_present ConfigHelper.example_state
     = (inr false, ConfigHelper.example_state)
  /\ ConfigHelper.load (fun _ => inr None) ConfigHelper.example_state
     = Some (inl (ValueError "No config found!"),
             ConfigHelper.example_state).
Proof.
  assert (Hf : ConfigHelper.fs ConfigHelper.example_state
               !! ConfigHelper.config_path ConfigHelper.example_state = None)
    by (vm_compute; reflexivity).
  split; [exact Hf|].
  exact (proj1 (load_without_usable_file (fun _ => inr None)
                  ConfigHelper.example_state) Hf).
Defined.

Lemma load_after_set_property_witness :
  ConfigHelper.config_path ConfigHelper.example_state = "config.json"
  /\ ConfigHelper.load
       (fun _ =>
          inr (Some (<["token" := VStr "abc"]>
                       (ConfigHelper._whole_config
                          ConfigHelper.example_state))))
       (ConfigHelper.__init__ (fun _ => "config.json") "/home/user"
          (ConfigHelper.fs
             (world (ConfigHelper.set_property (fun _ => "{}") "token"
                       (VStr "abc")) ConfigHelper.example_state)))
     = Some (inr tt,
             world (ConfigHelper.set_property (fun _ => "{}") "token"
                      (VStr "abc")) ConfigHelper.example_state).
Proof.
  split; [reflexivity|].
  exact (proj2 (load_after_set_property (fun _ => "{}")
                  (fun _ =>
                     inr (Some (<["token" := VStr "abc"]>
                                  (ConfigHelper._whole_config
                                     ConfigHelper.example_state))))
                  (fun _ => "config.json") "/home/user" "token" (VStr "abc")
                  ConfigHelper.example_state eq_refl eq_refl)).
Defined.

Lemma filter_courses_twice_witness :
  (forall l, l ∈ [1%positive] -> is_Some (MoodleService.example_heap !! l))
  /\ MoodleService._filter_courses MoodleService.example_selection [7%Z] []
       false true false [1%positive] MoodleService.example_heap
     = Some (MoodleService.filtered_heap false true false [1%positive]
               MoodleService.example_heap, [1%positive])
  /\ MoodleService._filter_courses MoodleService.example_selection [7%Z] []
       false true false [1%positive]
       (MoodleService.filtered_heap false true false [1%positive]
          MoodleService.example_heap)
     = Some (MoodleService.filtered_heap false true false [1%positive]
               MoodleService.example_heap, [1%positive]).
Proof.
  assert (Hvalid : forall l, l ∈ [1%positive] ->
            is_Some (MoodleService.example_heap !! l)).
  { intros l Hl. apply list_elem_of_singleton in Hl as ->.
    vm_compute; eauto. }
  assert (Hrun :
    MoodleService._filter_courses MoodleService.example_selection [7%Z] []
      false true false [1%positive] MoodleService.example_heap
    = Some (MoodleService.filtered_heap false true false [1%positive]
              MoodleService.example_heap, [1%positive]))
    by (vm_compute; reflexivity).
  split; [exact Hvalid|]. split; [exact Hrun|].
  exact (filter_courses_twice MoodleService.example_selection [7%Z] []
           false true false [1%positive] MoodleService.example_heap _ _
           Hvalid Hrun).
Defined.

Lemma report_skips_courses_without_files_witness :
  Forall (fun c => files c = []) ConfigService.example_courses
  /\ ConsoleService.notify_about_changes_in_moodle
       ConfigService.example_courses
     = [ConsoleService.Print ConsoleService.NEWLINE].
Proof.
  assert (Hall : Forall (fun c => files c = []) ConfigService.example_courses)
    by (repeat constructor).
  split; [exact Hall|].
  exact (proj2 (report_skips_courses_without_files
                  ConfigService.example_courses) Hall).
Defined.

Lemma change_settings_without_change_writes_nothing_witness :
  ConfigService.current_settings ConfigService.example_course []
  = Some (ConfigService.default_settings ConfigService.example_course)
  /\ exists w',
       ConfigService._change_settings_of (fun _ => "{}")
         ConfigService.example_special_str ConfigService.example_course []
         EmptyString true ConfigService.example_world
       = Some (inr tt, w')
       /\ ConfigService.config_helper w'
          = ConfigService.config_helper ConfigService.example_world
       /\ length (List.filter ConfigService.is_prompt
                    (ConfigService.terminal w'))
          = length (List.filter ConfigService.is_prompt
                      (ConfigService.terminal ConfigService.example_world))
            + 2.
Proof.
  assert (Hs : ConfigService.current_settings ConfigService.example_course []
               = Some (ConfigService.default_settings
                         ConfigService.example_course)) by reflexivity.
  split; [exact Hs|].
  exact (change_settings_without_change_writes_nothing (fun _ => "{}")
           ConfigService.example_special_str ConfigService.example_course []
           EmptyString true ConfigService.example_world _ Hs
           (or_intror eq_refl) eq_refl).
Defined.

Lemma change_settings_stores_the_settings_witness :
  ConfigService.current_settings ConfigService.example_course []
  = Some (ConfigService.default_settings ConfigService.example_course)
  /\ exists w' options' settings',
       ConfigService._change_settings_of (fun _ => "{}")
         ConfigService.example_special_str ConfigService.example_course []
         "Logic I" false ConfigService.example_world
       = Some (inr tt, w')
       /\ ConfigHelper.get_options_of_courses (ConfigService.config_helper w')
          = (inr (VDict options'), ConfigService.config_helper w')
       /\ dict_get "7" options' = Some (VDict settings')
       /\ default (VBool true)
            (dict_get "create_directory_structure" settings') = VBool false
       /\ default VNone (dict_get "overwrite_name_with" settings')
          = VStr "Logic I".
Proof.
  assert (Hs : ConfigService.current_settings ConfigService.example_course []
               = Some (ConfigService.default_settings
                         ConfigService.example_course)) by reflexivity.
  split; [exact Hs|].
  destruct (change_settings_stores_the_settings (fun _ => "{}")
              ConfigService.example_special_str ConfigService.example_course
              [] "Logic I" false ConfigService.example_world _ Hs eq_refl)
    as (w' & options' & settings' & Hrun & Hget & _ & Hentry & _ & Hdir
        & Hname & _).
  exists w', options', settings'.
  split; [exact Hrun|]. split; [exact Hget|]. split; [exact Hentry|].
  split; [exact Hdir|]. apply Hname. discriminate.
Defined.

Lemma add_options_assigns_the_configured_options_witness :
  ConfigHelper._whole_config
    (ConfigService.config_helper ConfigService.example_world)
    !! "options_of_courses" = None
  /\ CourseOptions.add_options_to_courses [1%positive]
       {[ 1%positive := ConfigService.example_course ]} ∅
       (ConfigService.config_helper ConfigService.example_world)
     = Some (∅, [1%positive]).
Proof.
  assert (Hk : ConfigHelper._whole_config
                 (ConfigService.config_helper ConfigService.example_world)
                 !! "options_of_courses" = None)
    by (vm_compute; reflexivity).
  split; [exact Hk|].
  apply (proj2 (add_options_assigns_the_configured_options [1%positive]
                  {[ 1%positive := ConfigService.example_course ]} ∅
                  (ConfigService.config_helper ConfigService.example_world))
           Hk).
  intros l Hl. apply list_elem_of_singleton in Hl as ->.
  vm_compute; eauto.
Defined.

Lemma changed_settings_reach_the_course_witness :
  ConfigService.current_settings ConfigService.example_course []
  = Some (ConfigService.default_settings ConfigService.example_course)
  /\ exists w' a,
       ConfigService._change_settings_of (fun _ => "{}")
         ConfigService.example_special_str ConfigService.example_course []
         "Logic I" false ConfigService.example_world
       = Some (inr tt, w')
       /\ CourseOptions.add_options_to_courses [1%positive]
            {[ 1%positive := ConfigService.example_course ]} ∅
            (ConfigService.config_helper w')
          = Some (<[1%positive := a]> ∅, [1%positive])
       /\ CourseOptions.create_directory_structure a = VBool false
       /\ CourseOptions.overwrite_name_with a = VStr "Logic I".
Proof.
  assert (Hs : ConfigService.current_settings ConfigService.example_course []
               = Some (ConfigService.default_settings
                         ConfigService.example_course)) by reflexivity.
  assert (Hr : ({[ 1%positive := ConfigService.example_course ]} : heap)
               !! 1%positive = Some ConfigService.example_course)
    by (vm_compute; reflexivity).
  split; [exact Hs|].
  destruct (changed_settings_reach_the_course (fun _ => "{}")
              ConfigService.example_special_str ConfigService.example_course
              [] "Logic I" false ConfigService.example_world _
              {[ 1%positive := ConfigService.example_course ]} 1%positive ∅
              Hs eq_refl Hr)
    as (w' & a & Hrun & Hadd & Hdir & Hname).
  exists w', a. split; [exact Hrun|]. split; [exact Hadd|].
  split; [exact Hdir|]. apply Hname. discriminate.
Defined.

End FurtherExamples.
